(** * spacesync-front: the client's observable contract

    A shallow embedding of the browser client: the remote service client
    ([services/api.ts]), the authenticated-session context
    ([AuthContext.tsx]) and the handlers of the task submission view
    ([TaskSubmissionPage.tsx]).

    Asynchronous functions are embedded as computations over an explicit
    [world] (the browser's local storage, the log of requests handed to
    [fetch], the console, the scroll requests, the state of the component
    that runs the function); a rejected promise is a [Thrown] outcome,
    [try]/[catch]/[finally] are combinators on such computations.  The
    remote service is a parameter: a function from the request to the
    outcome of [fetch]. *)

From stdpp Require Import base strings pretty gmap list.
From Stdlib Require Import ZArith NArith QArith Qround Lia.

Set Default Proof Using "Type".
#[local] Set Warnings "-register-all".
Open Scope Z_scope.

(** ** The JavaScript values the client manipulates *)

Module JS.

(** An [Error] object, as far as the client looks at it: [error.message]. *)
Record exn := mkExn { exn_name : string; exn_message : string }.

Definition new_Error (message : string) : exn := mkExn "Error" message.

(** The time value of a [Date]: milliseconds since the epoch, [None] for
    an invalid date ([NaN]). *)
Definition time_value := option Z.

(** What the engine supplies and the client never computes itself: the
    number type of parsed JSON (IEEE doubles), its truthiness and printing,
    the number [0], the [TypeError] raised by a property read on [null],
    the [TypeError] raised when an object has no primitive value, and the
    time value of [new Date(text)]. *)
Class Engine := {
  number : Type;
  number_truthy : number -> bool;
  number_toString : number -> string;
  zero : number;
  null_access : string -> exn;
  not_primitive : exn;
  Date_parse : string -> time_value
}.

Section Values.
Context {E : Engine}.

(** The result of [response.json()]: a parsed JSON text.  An object is the
    list of its own properties. *)
Inductive json :=
  | JNull
  | JBool (b : bool)
  | JNum (n : number)
  | JStr (s : string)
  | JArr (items : list json)
  | JObj (props : list (string * json)).

(** [!!v] for a JSON value. *)
Definition truthy (v : json) : bool :=
  match v with
  | JNull => false
  | JBool b => b
  | JNum n => number_truthy n
  | JStr s => negb (String.eqb s "")
  | JArr _ | JObj _ => true
  end.

Fixpoint assoc (k : string) (l : list (string * json)) : option json :=
  match l with
  | [] => None
  | (k', v) :: l' => if String.eqb k k' then Some v else assoc k l'
  end.

(** [String(v)], which is what [new Error(v)] stores as its message.  An
    array prints its items separated by commas, [null] items as nothing,
    and throws what its first item that cannot be printed throws.  A
    parsed object prints as [[object Object]] through the [toString] it
    inherits; when it has a property of its own named [toString] (a parsed
    value, never a function), neither that nor [valueOf] gives a primitive
    value and the conversion throws a [TypeError]. *)
Fixpoint toString (v : json) : exn + string :=
  match v with
  | JNull => inr "null"
  | JBool true => inr "true"
  | JBool false => inr "false"
  | JNum n => inr (number_toString n)
  | JStr s => inr s
  | JArr items =>
      (fix join (l : list json) : exn + string :=
         match l with
         | [] => inr ""
         | [x] => match x with JNull => inr "" | _ => toString x end
         | x :: l' =>
             match (match x with JNull => inr "" | _ => toString x end) with
             | inl e => inl e
             | inr first =>
                 match join l' with
                 | inl e => inl e
                 | inr rest => inr (first +:+ "," +:+ rest)
                 end
             end
         end) items
  | JObj props =>
      match assoc "toString" props with
      | Some _ => inl not_primitive
      | None => inr "[object Object]"
      end
  end.

(** [v.p] for a property name [p] that no prototype defines ([message],
    [valid], ...): [None] is [undefined]; reading from [null] throws. *)
Definition get_field (v : json) (p : string) : exn + option json :=
  match v with
  | JNull => inl (null_access p)
  | JObj props => inr (assoc p props)
  | _ => inr None
  end.

(** [x || d] where [x] may be [undefined]. *)
Definition or_else (x : option json) (d : json) : json :=
  match x with
  | Some v => if truthy v then v else d
  | None => d
  end.

End Values.

(** [s || d] for a string [s]. *)
Definition str_or (s d : string) : string :=
  if String.eqb s "" then d else s.

(** [!!s] for [s : string | null]. *)
Definition truthy_str (s : option string) : bool :=
  match s with
  | Some s => negb (String.eqb s "")
  | None => false
  end.

(** A string inside a template literal: [null] prints as [null]. *)
Definition template_str (s : option string) : string :=
  match s with
  | Some s => s
  | None => "null"
  end.

(** [s.endsWith(t)]. *)
Definition endsWith (s t : string) : bool :=
  let ls := String.length s in
  let lt := String.length t in
  if (lt <=? ls)%nat then String.eqb (String.substring (ls - lt) lt s) t else false.

(** [l.includes(x)] on a list of strings. *)
Definition includes (l : list string) (x : string) : bool :=
  existsb (String.eqb x) l.

(** Text whose characters the client inspects (the code field, which is
    trimmed) is kept as its UTF-16 code units. *)
Definition utf16 := list N.

(** WhiteSpace and LineTerminator of ECMAScript: TAB, LF, VT, FF, CR, SP,
    NBSP, U+1680, U+2000..U+200A, U+2028, U+2029, U+202F, U+205F, U+3000,
    U+FEFF. *)
Definition is_whitespace (c : N) : bool :=
  ((9 <=? c) && (c <=? 13) || (c =? 32) || (c =? 160) || (c =? 5760)
   || (8192 <=? c) && (c <=? 8202) || (c =? 8232) || (c =? 8233)
   || (c =? 8239) || (c =? 8287) || (c =? 12288) || (c =? 65279))%N.

Fixpoint trimStart (s : utf16) : utf16 :=
  match s with
  | c :: s' => if is_whitespace c then trimStart s' else s
  | [] => []
  end.

Definition trimEnd (s : utf16) : utf16 := rev (trimStart (rev s)).

(** [s.trim()]. *)
Definition trim (s : utf16) : utf16 := trimEnd (trimStart s).

(** The text as a [USVString], which is what [FormData.append] stores: a
    surrogate that is not part of a pair (a high one, U+D800..U+DBFF,
    followed by a low one, U+DC00..U+DFFF) becomes U+FFFD. *)
Definition is_high_surrogate (c : N) : bool :=
  ((55296 <=? c) && (c <=? 56319))%N.

Definition is_low_surrogate (c : N) : bool :=
  ((56320 <=? c) && (c <=? 57343))%N.

Fixpoint toUSVString (s : utf16) : utf16 :=
  match s with
  | [] => []
  | c :: s' =>
      if is_high_surrogate c then
        match s' with
        | d :: s'' =>
            if is_low_surrogate d then c :: d :: toUSVString s''
            else 65533%N :: toUSVString s'
        | [] => [65533%N]
        end
      else if is_low_surrogate c then 65533%N :: toUSVString s'
      else c :: toUSVString s'
  end.

(** [!!s] for such a text. *)
Definition truthy_utf16 (s : utf16) : bool :=
  match s with
  | [] => false
  | _ => true
  end.

(** A [File] picked in the form: the client reads its name, its MIME type
    and its size in bytes. *)
Record File := mkFile { file_name : string; file_type : string; file_size : N }.

(** Arithmetic on integral numbers that may be [NaN] ([None]): every
    comparison with [NaN] is false, every operation on it gives [NaN]. *)
Definition num_ltb (a b : option Z) : bool :=
  match a, b with
  | Some x, Some y => x <? y
  | _, _ => false
  end.

Definition num_eqb (a b : option Z) : bool :=
  match a, b with
  | Some x, Some y => x =? y
  | _, _ => false
  end.

Definition num_sub (a b : option Z) : option Z :=
  match a, b with
  | Some x, Some y => Some (x - y)
  | _, _ => None
  end.

(** A number inside a template literal (an integer below 10^21 prints as
    its decimal digits). *)
Definition num_toString (a : option Z) : string :=
  match a with
  | Some x => pretty x
  | None => "NaN"
  end.

(** [Math.round(n / d)] for integers [n] and [d > 0]: the quotient rounded
    to the nearest integer, halves towards plus infinity.  The client
    applies it to a difference of two time values and to 60000.  Time
    values are integers of magnitude at most 8.64e15, so with the current
    time after the epoch the difference is below 2^53 and exact; a
    half-integer in that range of quotients is a double, and the exact
    quotient, when it is not that half-integer, is at least 1/60000 away
    from it, more than half the spacing of the doubles there: the double
    quotient is on the same side, and rounds to the same integer. *)
Definition Math_round_quot (n d : Z) : Z :=
  Qfloor (inject_Z n / inject_Z d + (1 # 2))%Q.

End JS.

(** ** Effects: the world an asynchronous function runs in *)

Module Eff.
Import JS.

Inductive outcome (A : Type) :=
  | Returned (a : A)
  | Thrown (e : exn).
Arguments Returned {A} a.
Arguments Thrown {A} e.

Section World.
Context {E : Engine}.

(** The body handed to [fetch]: the object given to [JSON.stringify], or
    the entries appended to a [FormData]. *)
Inductive form_value :=
  | FieldText (text : utf16)
  | FieldFile (file : File).

Inductive payload :=
  | JsonBody (value : json)
  | FormBody (entries : list (string * form_value)).

Record request := mkRequest {
  req_url : string;
  req_method : string;
  req_headers : list (string * string);
  req_body : option payload
}.

(** A [Response]: its status, and what [response.json()] resolves or
    rejects with. *)
Record response := mkResponse {
  resp_status : Z;
  resp_json : outcome json
}.

(** [response.ok]: the status is in the range 200-299. *)
Definition ok (r : response) : bool :=
  (200 <=? resp_status r) && (resp_status r <=? 299).

(** [S] is the state of the React component the computation belongs to. *)
Context {S : Type}.

Record world := mkWorld {
  localStorage : gmap string string;
  requests : list request;
  console : list (string * exn);
  scrolled : list string;
  component : S
}.

Definition M (A : Type) : Type := world -> outcome A * world.

Definition ret {A} (a : A) : M A := fun w => (Returned a, w).

Definition throw {A} (e : exn) : M A := fun w => (Thrown e, w).

Definition bind {A B} (m : M A) (k : A -> M B) : M B :=
  fun w =>
    match m w with
    | (Returned a, w') => k a w'
    | (Thrown e, w') => (Thrown e, w')
    end.

(** [try { m } catch (error) { handler error }]. *)
Definition try_catch {A} (m : M A) (handler : exn -> M A) : M A :=
  fun w =>
    match m w with
    | (Returned a, w') => (Returned a, w')
    | (Thrown e, w') => handler e w'
    end.

(** [try { m } finally { cleanup }]: [cleanup] runs either way, and its
    own exception, if any, replaces the outcome of [m]. *)
Definition try_finally {A} (m : M A) (cleanup : M unit) : M A :=
  fun w =>
    match m w with
    | (r, w') =>
        match cleanup w' with
        | (Returned _, w'') => (r, w'')
        | (Thrown e, w'') => (Thrown e, w'')
        end
    end.

(** A value that is either computed or thrown while evaluating an
    expression. *)
Definition lift {A} (x : exn + A) : M A :=
  match x with
  | inl e => throw e
  | inr a => ret a
  end.

Definition getItem (key : string) : M (option string) :=
  fun w => (Returned (localStorage w !! key), w).

Definition setItem (key value : string) : M unit :=
  fun w => (Returned tt,
            mkWorld (<[key := value]> (localStorage w)) (requests w)
                    (console w) (scrolled w) (component w)).

Definition removeItem (key : string) : M unit :=
  fun w => (Returned tt,
            mkWorld (delete key (localStorage w)) (requests w)
                    (console w) (scrolled w) (component w)).

(** [console.error(label, error)]. *)
Definition console_error (label : string) (error : exn) : M unit :=
  fun w => (Returned tt,
            mkWorld (localStorage w) (requests w)
                    (console w ++ [(label, error)]) (scrolled w)
                    (component w)).

(** [document.getElementById(id)?.scrollIntoView(...)]. *)
Definition scrollIntoView (id : string) : M unit :=
  fun w => (Returned tt,
            mkWorld (localStorage w) (requests w) (console w)
                    (scrolled w ++ [id]) (component w)).

(** The world after the component's state went through [update]. *)
Definition with_component (update : S -> S) (w : world) : world :=
  mkWorld (localStorage w) (requests w) (console w) (scrolled w)
          (update (component w)).

(** The world after a call that handed [req] to [fetch] and logged
    [logged] on the console. *)
Definition called (w : world) (req : request)
    (logged : list (string * exn)) : world :=
  mkWorld (localStorage w) (requests w ++ [req]) (console w ++ logged)
          (scrolled w) (component w).

(** Reading the component's state, and a state setter of [useState]. *)
Definition read {A} (field : S -> A) : M A :=
  fun w => (Returned (field (component w)), w).

Definition set_state (update : S -> S) : M unit :=
  fun w => (Returned tt, with_component update w).

(** An [await] of a handler: while [m] is pending the component handles
    other events, which change its state by [interleaved]. *)
Definition in_flight {A} (interleaved : S -> S) (m : M A) : M A :=
  fun w =>
    match m w with
    | (r, w') => (r, with_component interleaved w')
    end.

(** The remote service and the network in front of it: what [fetch]
    resolves or rejects with for a request. *)
Definition fetch (server : request -> outcome response) (req : request)
  : M response :=
  fun w => (server req,
            mkWorld (localStorage w) (requests w ++ [req])
                    (console w) (scrolled w) (component w)).

(** [await response.json()]. *)
Definition response_json (r : response) : M json :=
  fun w => (resp_json r, w).

(** A failed call: [fetch] rejected (a network error), or the response
    has a status outside 200-299. *)
Definition failure (r : outcome response) : Prop :=
  match r with
  | Thrown _ => True
  | Returned resp => ok resp = false
  end.

End World.

Arguments world {_} S.
Arguments M {_} S A.

Declare Scope eff_scope.
Delimit Scope eff_scope with eff.
Notation "'await' x ':=' m 'in' k" := (bind m (fun x => k))
  (at level 10, x name, m at level 99, k at level 200) : eff_scope.
Notation "m ;; k" := (bind m (fun _ => k))
  (at level 100, k at level 200, right associativity) : eff_scope.

End Eff.

(** ** services/api.ts: the remote service client *)

Module apiService.
Import JS Eff.
#[local] Open Scope eff_scope.

Section Client.
Context {E : Engine} {S : Type}.
(** [import.meta.env.VITE_API_URL], when the build defines it. *)
Variable VITE_API_URL : option string.
Variable server : request -> outcome response.

Definition API_BASE_URL : string :=
  if truthy_str VITE_API_URL then template_str VITE_API_URL
  else "https://310c-137-151-175-115.ngrok-free.app".

Definition tokenKey : string := "phoneComputeToken".

Definition bearer (token : option string) : list (string * string) :=
  [("Authorization", "Bearer " +:+ template_str token)].

Definition login_request (username password : string) : request :=
  mkRequest (API_BASE_URL +:+ "/auth/login") "POST"
            [("Content-Type", "application/json")]
            (Some (JsonBody (JObj [("username", JStr username);
                                   ("password", JStr password)]))).

Definition validate_request (token : option string) : request :=
  mkRequest (API_BASE_URL +:+ "/auth/validate") "GET" (bearer token) None.

Definition status_request (token : option string) : request :=
  mkRequest (API_BASE_URL +:+ "/status") "GET" (bearer token) None.

Definition tasks_request (token : option string) : request :=
  mkRequest (API_BASE_URL +:+ "/tasks") "GET" (bearer token) None.

(** The [FormData] of [submitTask]: the code (as [append] stores it) when
    it is not blank, then the file when there is one. *)
Definition submit_form (code : utf16) (file : option File)
  : list (string * form_value) :=
  (if truthy_utf16 (trim code) then [("code", FieldText (toUSVString code))]
   else [])
    ++ (match file with
        | Some f => [("file", FieldFile f)]
        | None => []
        end).

Definition submit_request (token : option string) (code : utf16)
    (file : option File) : request :=
  mkRequest (API_BASE_URL +:+ "/tasks") "POST" (bearer token)
            (Some (FormBody (submit_form code file))).

(** [{ success: false, message }]. *)
Definition login_failed (message : string) : json :=
  JObj [("success", JBool false); ("message", JStr message)].

Definition login (username password : string) : M S json :=
  try_catch
    (await response := fetch server (login_request username password) in
     await data := response_json response in
     if negb (ok response) then
       await message := lift (get_field data "message") in
       await text :=
         lift (toString (or_else message (JStr "Login failed"))) in
       throw (new_Error text)
     else ret data)
    (fun error =>
       console_error "Login error:" error ;;
       ret (login_failed (str_or (exn_message error) "Login failed"))).

(** [{ valid }]. *)
Definition validation (valid : bool) : json := JObj [("valid", JBool valid)].

Definition validateToken : M S json :=
  try_catch
    (await token := getItem tokenKey in
     if negb (truthy_str token) then ret (validation false)
     else
       await response := fetch server (validate_request token) in
       if negb (ok response) then ret (validation false)
       else ret (validation true))
    (fun error =>
       console_error "Token validation error:" error ;;
       ret (validation false)).

Definition status_fallback : json :=
  JObj [("availablePhones", JNum zero); ("busyPhones", JNum zero);
        ("averageProcessingTime", JNum zero)].

Definition getStatus : M S json :=
  try_catch
    (await token := getItem tokenKey in
     await response := fetch server (status_request token) in
     if negb (ok response) then throw (new_Error "Failed to fetch status")
     else response_json response)
    (fun error =>
       console_error "Error fetching status:" error ;;
       ret status_fallback).

Definition getTasks : M S json :=
  try_catch
    (await token := getItem tokenKey in
     await response := fetch server (tasks_request token) in
     if negb (ok response) then throw (new_Error "Failed to fetch tasks")
     else response_json response)
    (fun error =>
       console_error "Error fetching tasks:" error ;;
       ret (JArr [])).

Definition submitTask (code : utf16) (file : option File) : M S json :=
  try_catch
    (await token := getItem tokenKey in
     await response := fetch server (submit_request token code file) in
     if negb (ok response) then
       await errorData := response_json response in
       await message := lift (get_field errorData "message") in
       await text :=
         lift (toString (or_else message (JStr "Failed to submit task"))) in
       throw (new_Error text)
     else response_json response)
    (fun error =>
       console_error "Error submitting task:" error ;;
       throw error).

End Client.
End apiService.

(** ** AuthContext.tsx: the authenticated-session context *)

Module AuthContext.
Import JS Eff.
#[local] Open Scope eff_scope.

(** The state of [AuthProvider]. *)
Record state := mkState {
  userToken : option string;
  isLoading : bool
}.

Definition setUserToken (v : option string) (st : state) : state :=
  mkState v (isLoading st).

(** The value handed to the consumers of the context (its [login] and
    [logout] members are functions). *)
Record AuthContextType := mkContext {
  ctx_userToken : option string;
  isAuthenticated : bool;
  ctx_isLoading : bool
}.

(** The value the provider renders with: [isAuthenticated: !!userToken]. *)
Definition value (st : state) : AuthContextType :=
  mkContext (userToken st) (truthy_str (userToken st)) (isLoading st).

(** The initial state: [useState(localStorage.getItem(...))] and
    [useState(false)]. *)
Definition AuthProvider (storage : gmap string string) : state :=
  mkState (storage !! apiService.tokenKey) false.

Section Provider.
Context {E : Engine}.

Definition logout : M state unit :=
  removeItem apiService.tokenKey ;;
  set_state (setUserToken None).

Variable VITE_API_URL : option string.
Variable server : request -> outcome response.

(** [!x] is false, for an [x] that may be [undefined]. *)
Definition truthy_field (x : option json) : bool :=
  match x with
  | Some v => truthy v
  | None => false
  end.

(** The effect run once when the provider mounts (its inner function
    [validateToken]); [interleaved] is what the events handled while the
    validation is in flight do to the state. *)
Definition validateToken (interleaved : state -> state) : M state unit :=
  await token := getItem apiService.tokenKey in
  if negb (truthy_str token) then ret tt
  else
    try_catch
      (await result :=
         in_flight interleaved
           (apiService.validateToken VITE_API_URL server) in
       await valid := lift (get_field result "valid") in
       if negb (truthy_field valid) then
         removeItem apiService.tokenKey ;;
         set_state (setUserToken None)
       else ret tt)
      (fun error =>
         console_error "Error validating token:" error ;;
         removeItem apiService.tokenKey ;;
         set_state (setUserToken None)).

End Provider.

(** [useAuth()]: [context] is what [useContext(AuthContext)] gives,
    [None] outside of any provider. *)
Definition useAuth (context : option AuthContextType)
  : exn + AuthContextType :=
  match context with
  | None => inl (new_Error "useAuth must be used within an AuthProvider")
  | Some c => inr c
  end.

End AuthContext.

(** ** App.tsx: the route guard *)

Module App.
Import JS.

(** What a route renders: an element, or [<Navigate to=... />]. *)
Inductive rendered (A : Type) :=
  | Show (element : A)
  | Navigate (to : string).
Arguments Show {A} element.
Arguments Navigate {A} to.

Definition ProtectedRoute {A} (context : option AuthContext.AuthContextType)
    (element : A) : exn + rendered A :=
  match AuthContext.useAuth context with
  | inl e => inl e
  | inr c =>
      inr (if AuthContext.isAuthenticated c then Show element
           else Navigate "/login")
  end.

End App.

(** ** TaskSubmissionPage.tsx: the task submission view *)

Module TaskSubmissionPage.
Import JS Eff.
#[local] Open Scope eff_scope.

Inductive TaskStatus := pending | processing | completed | failed.

Section View.
Context {E : Engine}.
Variable VITE_API_URL : option string.
Variable server : request -> outcome response.

(** [interface Task]. *)
Record Task := mkTask {
  id : string;
  status : TaskStatus;
  task_code : string;
  fileName : option string;
  estimatedCompletionTime : option string;
  result : option json;
  createdAt : string
}.

(** The state of the component; [userTasks] holds the tasks as the
    service client returned them. *)
Record state := mkState {
  code : utf16;
  file : option File;
  isSubmitting : bool;
  error : option string;
  phoneStatus : option json;
  userTasks : list json
}.

Definition setCode (v : utf16) (st : state) : state :=
  mkState v (file st) (isSubmitting st) (error st) (phoneStatus st)
          (userTasks st).
Definition setFile (v : option File) (st : state) : state :=
  mkState (code st) v (isSubmitting st) (error st) (phoneStatus st)
          (userTasks st).
Definition setIsSubmitting (v : bool) (st : state) : state :=
  mkState (code st) (file st) v (error st) (phoneStatus st) (userTasks st).
Definition setError (v : option string) (st : state) : state :=
  mkState (code st) (file st) (isSubmitting st) v (phoneStatus st)
          (userTasks st).
(** [setUserTasks(prev => update prev)]. *)
Definition setUserTasks (update : list json -> list json) (st : state)
  : state :=
  mkState (code st) (file st) (isSubmitting st) (error st) (phoneStatus st)
          (update (userTasks st)).

Definition MAX_FILE_SIZE : N := 5 * 1024 * 1024.

Definition allowedTypes : list string :=
  ["text/javascript"; "application/javascript"; "application/json";
   "text/plain"].

Definition size_limit_message : string :=
  "File size exceeds the maximum limit of "
    +:+ pretty (MAX_FILE_SIZE / 1024 / 1024)%N +:+ "MB".

Definition type_message : string :=
  "Please upload a JavaScript file (.js) or JSON data file".

(** [selectedFile] is [e.target.files?.[0]]. *)
Definition handleFileChange (selectedFile : option File) : M state unit :=
  match selectedFile with
  | None => ret tt
  | Some f =>
      if (MAX_FILE_SIZE <? file_size f)%N then
        set_state (setError (Some size_limit_message))
      else if negb (includes allowedTypes (file_type f))
              && negb (endsWith (file_name f) ".js") then
        set_state (setError (Some type_message))
      else
        set_state (setFile (Some f)) ;;
        set_state (setError None)
  end.

(** The type condition on a selected file, as a proposition: its MIME type
    is on the allow-list or its name is some stem followed by ".js". *)
Definition allowed (f : File) : Prop :=
  file_type f ∈ allowedTypes \/ exists stem, file_name f = stem +:+ ".js".

(** The code field has no character other than white space. *)
Definition blank (text : utf16) : Prop :=
  Forall (fun c => is_whitespace c = true) text.

Definition empty_message : string :=
  "Please provide JavaScript code or attach a file".

(** [!!file]. *)
Definition truthy_file (f : option File) : bool :=
  match f with
  | Some _ => true
  | None => false
  end.

(** [code] and [file] are those of the state the handler starts in;
    [interleaved] is what the events handled while the request is in
    flight do to the state. *)
Definition handleSubmit (interleaved : state -> state) : M state unit :=
  await code := read code in
  await file := read file in
  if negb (truthy_utf16 (trim code)) && negb (truthy_file file) then
    set_state (setError (Some empty_message))
  else
    set_state (setIsSubmitting true) ;;
    set_state (setError None) ;;
    try_finally
      (try_catch
         (await taskData :=
            in_flight interleaved
              (apiService.submitTask VITE_API_URL server code file) in
          set_state (setUserTasks (fun prev => taskData :: prev)) ;;
          set_state (setCode []) ;;
          set_state (setFile None) ;;
          scrollIntoView "tasks-list")
         (fun err =>
            console_error "Error submitting task:" err ;;
            set_state
              (setError
                 (Some (str_or (exn_message err)
                               "Failed to submit task. Please try again.")))))
      (set_state (setIsSubmitting false)).

(** [now] is the time value of [new Date()]. *)
Definition formatEstimatedTime (now : Z) (task : Task) : string :=
  if negb (truthy_str (estimatedCompletionTime task)) then "Unknown"
  else
    let estimatedDate :=
      Date_parse (template_str (estimatedCompletionTime task)) in
    if num_ltb estimatedDate (Some now) then
      "Processing is taking longer than expected"
    else
      let diffMs := num_sub estimatedDate (Some now) in
      let diffMins := (fun d => Math_round_quot d 60000) <$> diffMs in
      if num_ltb diffMins (Some 1) then "Less than a minute"
      else if num_eqb diffMins (Some 1) then "1 minute"
      else if num_ltb diffMins (Some 60) then
        num_toString diffMins +:+ " minutes"
      else
        (* [Math.floor(diffMins / 60)] and [diffMins % 60] *)
        let hours := (fun m => m / 60) <$> diffMins in
        let mins := (fun m => Z.rem m 60) <$> diffMins in
        num_toString hours +:+ " hour"
          +:+ (if num_ltb (Some 1) hours then "s" else "") +:+ " "
          +:+ (if num_ltb (Some 0) mins then
                 num_toString mins +:+ " minute"
                   +:+ (if num_ltb (Some 1) mins then "s" else "")
               else "").

End View.
End TaskSubmissionPage.

(** ** A concrete engine and a concrete service, to run the client on *)

Module Sample.
Import JS Eff.

(** Numbers restricted to the integers, V8's messages for a read on [null]
    and for an object without a primitive value, and a [Date] that knows
    two timestamps. *)
Definition engine : Engine := {|
  number := Z;
  number_truthy := fun n => negb (n =? 0);
  number_toString := pretty;
  zero := 0;
  null_access := fun p =>
    mkExn "TypeError"
          ("Cannot read properties of null (reading '" +:+ p +:+ "')");
  not_primitive :=
    mkExn "TypeError" "Cannot convert object to primitive value";
  Date_parse := fun s =>
    if String.eqb s "2026-01-01T00:01:30.000Z" then Some 1767225690000
    else if String.eqb s "2026-01-01T03:00:00.000Z" then Some 1767236400000
    else None
|}.

(** Midnight, 1 January 2026 (UTC). *)
Definition midnight : Z := 1767225600000.

Definition task_due (due : option string) : @TaskSubmissionPage.Task engine :=
  TaskSubmissionPage.mkTask "task456" TaskSubmissionPage.processing
    "function longTask() {}" None due None "2026-01-01T00:00:00.000Z".

(** The network is down: every [fetch] rejects. *)
Definition offline : @request engine -> outcome (@response engine) :=
  fun _ => Thrown (mkExn "TypeError" "Failed to fetch").

(** A gateway in front of the service answers 502 with an HTML page, which
    [response.json()] cannot parse. *)
Definition bad_gateway : @request engine -> outcome (@response engine) :=
  fun _ => Returned (mkResponse 502
             (Thrown (mkExn "SyntaxError" "Unexpected token '<'"))).

(** The service refuses with 400 and the body [{"message": m}]. *)
Definition refuses (m : string)
  : @request engine -> outcome (@response engine) :=
  fun _ => Returned (mkResponse 400
             (Returned (JObj [("message", JStr m)]))).

(** The service refuses with 400 and the body [body]. *)
Definition refuses_with (body : @json engine)
  : @request engine -> outcome (@response engine) :=
  fun _ => Returned (mkResponse 400 (Returned body)).

(** The service accepts every request and answers 200 with [body]. *)
Definition accepts (body : @json engine)
  : @request engine -> outcome (@response engine) :=
  fun _ => Returned (mkResponse 200 (Returned body)).

Definition fresh {S} (storage : gmap string string) (st : S)
  : @world engine S :=
  mkWorld storage [] [] [] st.

Definition new_task : @json engine :=
  JObj [("id", JStr "newtask789"); ("status", JStr "pending")].

Definition old_task : @json engine :=
  JObj [("id", JStr "task123"); ("status", JStr "completed")].

(** The view with one task listed and [text] typed in the code field. *)
Definition typed (text : utf16) : @TaskSubmissionPage.state engine :=
  TaskSubmissionPage.mkState text None false None None [old_task].

Definition signed_in : gmap string string :=
  {[ apiService.tokenKey := "mock-token-12345" ]}.

End Sample.

(** * Properties *)

(** ** Facts about the JavaScript helpers *)

Section HelperFacts.
Import JS.

Lemma Math_round_quot_minutes (d : Z) :
  Math_round_quot d 60000 = (d + 30000) / 60000.
Proof.
  unfold Math_round_quot, Qfloor, Qdiv, Qmult, Qinv, Qplus, inject_Z.
  cbn. Z.to_euclidean_division_equations. lia.
Qed.

(** Rounding to the nearest minute, a half going up. *)
Lemma Math_round_quot_nearest (d n : Z) :
  Math_round_quot d 60000 = n <->
  60000 * n - 30000 <= d < 60000 * n + 30000.
Proof.
  rewrite Math_round_quot_minutes.
  split; intros Hn.
  - subst n. pose proof (Z.div_mod (d + 30000) 60000 ltac:(lia)).
    pose proof (Z.mod_pos_bound (d + 30000) 60000 ltac:(lia)). lia.
  - symmetry. apply (Z.div_unique _ _ _ (d + 30000 - 60000 * n)); lia.
Qed.

Lemma trimStart_nil (s : utf16) :
  trimStart s = [] <-> Forall (fun c => is_whitespace c = true) s.
Proof.
  induction s as [|c s IH]; cbn.
  - split; [constructor | reflexivity].
  - destruct (is_whitespace c) eqn:Hc.
    + rewrite IH. split; intros Hs.
      * now constructor.
      * now inversion Hs.
    + split; [discriminate | intros Hs; inversion Hs; congruence].
Qed.

Lemma trimStart_suffix (s : utf16) :
  exists blank, s = blank ++ trimStart s
                /\ Forall (fun c => is_whitespace c = true) blank.
Proof.
  induction s as [|c s (blank & Hs & Hblank)]; cbn.
  - exists []. split; [reflexivity | constructor].
  - destruct (is_whitespace c) eqn:Hc.
    + exists (c :: blank). split; [cbn; congruence | now constructor].
    + exists []. split; [reflexivity | constructor].
Qed.

Lemma trimStart_head (s : utf16) (c : N) (rest : utf16) :
  trimStart s = c :: rest -> is_whitespace c = false.
Proof.
  induction s as [|a s IH]; cbn; [discriminate |].
  destruct (is_whitespace a) eqn:Ha; [exact IH |].
  intros [= -> _]. exact Ha.
Qed.

(** [code.trim()] is the empty string exactly when [code] has no character
    other than white space. *)
Lemma trim_nil (s : utf16) :
  trim s = [] <-> Forall (fun c => is_whitespace c = true) s.
Proof.
  unfold trim, trimEnd. split.
  - intros Ht.
    assert (Hrev : trimStart (rev (trimStart s)) = []).
    { destruct (trimStart (rev (trimStart s))) as [|c r] eqn:E;
        [reflexivity |].
      cbn in Ht. now destruct (rev r). }
    apply trimStart_nil in Hrev.
    destruct (trimStart s) as [|c r] eqn:E.
    + now apply trimStart_nil.
    + apply trimStart_head in E.
      assert (Hc : c ∈ rev (c :: r)).
      { apply list_elem_of_In, in_rev. rewrite rev_involutive.
        now left. }
      rewrite Forall_forall in Hrev. specialize (Hrev c Hc). congruence.
  - intros Hs. apply trimStart_nil in Hs. now rewrite Hs.
Qed.

Lemma truthy_trim (s : utf16) :
  truthy_utf16 (trim s) = false <->
  Forall (fun c => is_whitespace c = true) s.
Proof.
  rewrite <- trim_nil. unfold truthy_utf16.
  destruct (trim s); split; congruence.
Qed.

Lemma includes_elem (l : list string) (x : string) :
  includes l x = true <-> x ∈ l.
Proof.
  unfold includes. rewrite existsb_exists, list_elem_of_In. split.
  - intros (y & Hy & Heq). apply String.eqb_eq in Heq. now subst.
  - intros Hx. exists x. split; [exact Hx | apply String.eqb_refl].
Qed.

Lemma append_cons (c : Ascii.ascii) (a b : string) :
  String c a +:+ b = String c (a +:+ b).
Proof. reflexivity. Qed.

Lemma substring_whole (t : string) :
  String.substring 0 (String.length t) t = t.
Proof. induction t as [|c t IH]; cbn; congruence. Qed.

Lemma substring_after (p t : string) :
  String.substring (String.length p) (String.length t) (p +:+ t) = t.
Proof.
  induction p as [|c p IH]; [apply substring_whole |].
  rewrite append_cons. exact IH.
Qed.

Lemma substring_split (s : string) (n : nat) :
  (n <= String.length s)%nat ->
  s = String.substring 0 n s
        +:+ String.substring n (String.length s - n) s.
Proof.
  revert n. induction s as [|c s IH]; intros [|n] Hn; cbn in *;
    try reflexivity; try lia.
  - now rewrite substring_whole.
  - rewrite append_cons. f_equal. apply IH. lia.
Qed.

Lemma length_app_string (p t : string) :
  String.length (p +:+ t) = (String.length p + String.length t)%nat.
Proof.
  induction p as [|c p IH]; [reflexivity |].
  rewrite append_cons. cbn. congruence.
Qed.

(** [name.endsWith(t)] holds exactly of the names [stem + t]. *)
Lemma endsWith_spec (s t : string) :
  endsWith s t = true <-> exists stem, s = stem +:+ t.
Proof.
  unfold endsWith. split.
  - destruct (Nat.leb_spec (String.length t) (String.length s)) as [Hle|];
      [|discriminate].
    intros Heq. apply String.eqb_eq in Heq.
    exists (String.substring 0 (String.length s - String.length t) s).
    rewrite (substring_split s (String.length s - String.length t)) at 1
      by lia.
    f_equal.
    replace (String.length s - (String.length s - String.length t))%nat
      with (String.length t) by lia.
    exact Heq.
  - intros (stem & ->). rewrite length_app_string.
    destruct (Nat.leb_spec (String.length t)
                (String.length stem + String.length t)) as [_|]; [|lia].
    replace (String.length stem + String.length t - String.length t)%nat
      with (String.length stem) by lia.
    rewrite substring_after. apply String.eqb_refl.
Qed.

End HelperFacts.

(** ** The task submission view *)

Section ViewFacts.
Import JS Eff TaskSubmissionPage.
Context {E : Engine}.
Variable VITE_API_URL : option string.
Variable server : request -> outcome response.

Lemma allowed_check (f : File) :
  negb (includes allowedTypes (file_type f))
    && negb (endsWith (file_name f) ".js") = false <-> allowed f.
Proof.
  unfold allowed. rewrite <- includes_elem, <- endsWith_spec.
  destruct (includes _ _), (endsWith _ _); cbn; intuition congruence.
Qed.

Lemma not_allowed_check (f : File) :
  negb (includes allowedTypes (file_type f))
    && negb (endsWith (file_name f) ".js") = true <-> ~ allowed f.
Proof.
  rewrite <- allowed_check.
  destruct (negb _ && negb _); intuition congruence.
Qed.

(** C1. [formatEstimatedTime] rounds the remaining time to the nearest
    whole minute, a half going up (it does not truncate): a task due
    exactly 90 seconds after the current time is shown as "2 minutes"; a
    rounded count below 1 is shown as "Less than a minute", a count of
    exactly 1 as "1 minute", a count N under 60 as "N minutes". *)
Theorem formatEstimatedTime_rounds_half_up
    (now t : Z) (task : Task) (due : string) :
  estimatedCompletionTime task = Some due ->
  due <> "" ->
  Date_parse due = Some t ->
  now <= t ->
  let diffMins := Math_round_quot (t - now) 60000 in
  60000 * diffMins - 30000 <= t - now < 60000 * diffMins + 30000
  /\ (t = now + 90000 -> formatEstimatedTime now task = "2 minutes")
  /\ (diffMins < 1 -> formatEstimatedTime now task = "Less than a minute")
  /\ (diffMins = 1 -> formatEstimatedTime now task = "1 minute")
  /\ (1 < diffMins < 60 ->
      formatEstimatedTime now task = pretty diffMins +:+ " minutes").
Proof.
  intros Hdue Hne Ht Hle diffMins.
  assert (Hfmt : formatEstimatedTime now task =
    if diffMins <? 1 then "Less than a minute"
    else if diffMins =? 1 then "1 minute"
    else if diffMins <? 60 then pretty diffMins +:+ " minutes"
    else formatEstimatedTime now task).
  { unfold formatEstimatedTime. rewrite Hdue. cbn [truthy_str template_str].
    apply String.eqb_neq in Hne. rewrite Hne, Ht. cbn [negb num_ltb].
    destruct (Z.ltb_spec t now) as [|_]; [lia |].
    cbn [num_sub fmap option_fmap option_map num_ltb num_eqb num_toString].
    fold diffMins.
    destruct (diffMins <? 1), (diffMins =? 1), (diffMins <? 60);
      reflexivity. }
  split; [now apply Math_round_quot_nearest |].
  repeat split.
  - intros ->. rewrite Hfmt. subst diffMins.
    replace (now + 90000 - now) with 90000 by lia.
    rewrite Math_round_quot_minutes. reflexivity.
  - intros Hlt. rewrite Hfmt.
    now destruct (Z.ltb_spec diffMins 1) as [_|]; [|lia].
  - intros Heq. rewrite Hfmt, Heq. reflexivity.
  - intros [Hlo Hhi]. rewrite Hfmt.
    destruct (Z.ltb_spec diffMins 1) as [|_]; [lia |].
    destruct (Z.eqb_spec diffMins 1) as [|_]; [lia |].
    now destruct (Z.ltb_spec diffMins 60) as [_|]; [|lia].
Qed.

(** C10. A task without [estimatedCompletionTime], or with the empty
    string there, is shown as "Unknown", whatever the current time. *)
Theorem formatEstimatedTime_unknown (task : Task) :
  estimatedCompletionTime task = None
  \/ estimatedCompletionTime task = Some "" ->
  forall now : Z, formatEstimatedTime now task = "Unknown".
Proof.
  intros [Hnone | Hempty] now; unfold formatEstimatedTime.
  - now rewrite Hnone.
  - now rewrite Hempty.
Qed.

(** C5. The size limit is 5 MiB, inclusive: a file of 5,242,881 bytes or
    more is refused with the size-limit message and the selected file
    stays what it was; a file of exactly 5,242,880 bytes that passes the
    type check is accepted. *)
Theorem handleFileChange_size_boundary (f : File) (w : world state) :
  ((5242881 <= file_size f)%N ->
   handleFileChange (Some f) w =
     (Returned tt,
      with_component
        (setError (Some "File size exceeds the maximum limit of 5MB")) w)
   /\ file (component (snd (handleFileChange (Some f) w)))
      = file (component w))
  /\ (file_size f = 5242880%N ->
      allowed f ->
      handleFileChange (Some f) w =
        (Returned tt,
         with_component (fun st => setError None (setFile (Some f) st)) w)
      /\ file (component (snd (handleFileChange (Some f) w))) = Some f
      /\ error (component (snd (handleFileChange (Some f) w))) = None).
Proof.
  split.
  - intros Hsize. unfold handleFileChange.
    destruct (N.ltb_spec MAX_FILE_SIZE (file_size f)) as [_|Hle];
      [|unfold MAX_FILE_SIZE in Hle; lia].
    split; reflexivity.
  - intros Hsize Hallowed. unfold handleFileChange. rewrite Hsize.
    change (MAX_FILE_SIZE <? 5242880)%N with false.
    apply allowed_check in Hallowed. rewrite Hallowed.
    repeat split.
Qed.

(** The allow-list of [handleFileChange], type by type. *)
Lemma allowed_types (f : File) :
  allowed f <->
  file_type f = "text/javascript"
  \/ file_type f = "application/javascript"
  \/ file_type f = "application/json"
  \/ file_type f = "text/plain"
  \/ exists stem, file_name f = stem +:+ ".js".
Proof.
  unfold allowed, allowedTypes. rewrite list_elem_of_In. cbn [In].
  intuition (subst; auto).
Qed.

(** C6. A file within the size limit is accepted exactly when its MIME
    type is [text/javascript], [application/javascript],
    [application/json] or [text/plain], or its name ends in ".js";
    otherwise the type error is set, and either way the handler sends
    nothing to the service.  [script.js] with an empty MIME type is
    accepted, [data.csv] of type [text/csv] is refused. *)
Theorem handleFileChange_type_check (f : File) (w : world state) :
  (file_size f <= 5 * 1024 * 1024)%N ->
  let after := snd (handleFileChange (Some f) w) in
  let permitted :=
    file_type f = "text/javascript"
    \/ file_type f = "application/javascript"
    \/ file_type f = "application/json"
    \/ file_type f = "text/plain"
    \/ exists stem, file_name f = stem +:+ ".js" in
  (file (component after) = Some f /\ error (component after) = None
   <-> permitted)
  /\ (permitted ->
      after = with_component (fun st => setError None (setFile (Some f) st)) w)
  /\ (~ permitted ->
      after =
        with_component
          (setError
             (Some "Please upload a JavaScript file (.js) or JSON data file"))
          w)
  /\ requests after = requests w
  /\ (file_name f = "script.js" -> file_type f = "" ->
      file (component after) = Some f /\ error (component after) = None)
  /\ (file_name f = "data.csv" -> file_type f = "text/csv" ->
      file (component after) = file (component w)
      /\ error (component after) =
         Some "Please upload a JavaScript file (.js) or JSON data file").
Proof.
  intros Hsize after permitted.
  assert (Hiff : allowed f <-> permitted) by apply allowed_types.
  assert (Hyes : permitted ->
    after = with_component (fun st => setError None (setFile (Some f) st)) w).
  { intros Hallowed. apply Hiff in Hallowed.
    subst after. unfold handleFileChange.
    destruct (N.ltb_spec MAX_FILE_SIZE (file_size f)) as [Hlt|_];
      [unfold MAX_FILE_SIZE in Hlt; lia |].
    apply allowed_check in Hallowed. now rewrite Hallowed. }
  assert (Hno : ~ permitted ->
    after = with_component (setError (Some type_message)) w).
  { intros Hallowed. rewrite <- Hiff in Hallowed.
    subst after. unfold handleFileChange.
    destruct (N.ltb_spec MAX_FILE_SIZE (file_size f)) as [Hlt|_];
      [unfold MAX_FILE_SIZE in Hlt; lia |].
    apply not_allowed_check in Hallowed. now rewrite Hallowed. }
  assert (Hdec : permitted \/ ~ permitted).
  { rewrite <- Hiff.
    destruct (negb (includes allowedTypes (file_type f))
                && negb (endsWith (file_name f) ".js")) eqn:Hcheck.
    - right. now apply not_allowed_check.
    - left. now apply allowed_check. }
  split; [|split; [exact Hyes | split; [exact Hno | split; [|split]]]].
  - split.
    + intros [_ Herr]. destruct Hdec as [Hallowed | Hnot]; [exact Hallowed |].
      rewrite (Hno Hnot) in Herr. discriminate.
    + intros Hallowed. rewrite (Hyes Hallowed). split; reflexivity.
  - destruct Hdec as [Hallowed | Hnot];
      [rewrite (Hyes Hallowed) | rewrite (Hno Hnot)]; reflexivity.
  - intros Hname Htype. rewrite Hyes; [split; reflexivity |].
    do 4 right. exists "script". exact Hname.
  - intros Hname Htype. rewrite Hno; [split; reflexivity |].
    rewrite <- Hiff.
    apply not_allowed_check. now rewrite Hname, Htype.
Qed.

(** C8. Submitting with a code field that holds nothing but white space
    and with no file attached sets the error message and does nothing
    else: no request is sent and the task list is left as it was. *)
Theorem handleSubmit_empty (interleaved : state -> state) (w : world state) :
  blank (code (component w)) ->
  file (component w) = None ->
  let after := snd (handleSubmit VITE_API_URL server interleaved w) in
  handleSubmit VITE_API_URL server interleaved w =
    (Returned tt,
     with_component
       (setError (Some "Please provide JavaScript code or attach a file")) w)
  /\ error (component after)
     = Some "Please provide JavaScript code or attach a file"
  /\ requests after = requests w
  /\ userTasks (component after) = userTasks (component w).
Proof.
  intros Hblank Hfile after.
  assert (Hrun : handleSubmit VITE_API_URL server interleaved w =
    (Returned tt, with_component (setError (Some empty_message)) w)).
  { unfold handleSubmit, bind, read. rewrite Hfile.
    apply truthy_trim in Hblank. now rewrite Hblank. }
  subst after. rewrite Hrun. repeat split.
Qed.

(** C9. After a successful submission the task list is the task the
    service returned followed by the list as it was: the new task is at
    the front, every earlier entry is still there, unchanged and in the
    same order.  (The list "as it was" is the one the updater finds, that
    is, after the events handled while the request was in flight.) *)
Theorem handleSubmit_prepends
    (interleaved : state -> state) (w : world state)
    (resp : response) (taskData : json) :
  let st := component w in
  ~ (blank (code st) /\ file st = None) ->
  server (apiService.submit_request VITE_API_URL
            (localStorage w !! apiService.tokenKey) (code st) (file st))
    = Returned resp ->
  ok resp = true ->
  resp_json resp = Returned taskData ->
  let previous :=
    userTasks (interleaved (setError None (setIsSubmitting true st))) in
  let after := snd (handleSubmit VITE_API_URL server interleaved w) in
  fst (handleSubmit VITE_API_URL server interleaved w) = Returned tt
  /\ userTasks (component after) = taskData :: previous
  /\ length (userTasks (component after)) = Datatypes.S (length previous)
  /\ (forall i, userTasks (component after) !! Datatypes.S i = previous !! i)
  /\ ((forall s, userTasks (interleaved s) = userTasks s) ->
      userTasks (component after) = taskData :: userTasks st).
Proof.
  intros st Hvalid Hserver Hok Hjson previous after.
  assert (Hcheck : negb (truthy_utf16 (trim (code st)))
                     && negb (truthy_file (file st)) = false).
  { destruct (truthy_utf16 (trim (code st))) eqn:Hcode; [reflexivity |].
    destruct (file st) eqn:Hfile; [reflexivity |].
    exfalso. apply Hvalid. split; [now apply truthy_trim | reflexivity]. }
  assert (Hrun : fst (handleSubmit VITE_API_URL server interleaved w)
                   = Returned tt
                 /\ userTasks (component after) = taskData :: previous).
  { subst after previous.
    unfold handleSubmit, bind, read. fold st. rewrite Hcheck.
    unfold try_finally, try_catch, in_flight, apiService.submitTask,
      try_catch, bind, getItem, fetch, set_state, with_component.
    cbn [localStorage component requests console scrolled fst snd].
    fold st. rewrite Hserver. cbn [fst snd]. rewrite Hok. cbn [negb].
    unfold response_json. rewrite Hjson.
    split; reflexivity. }
  destruct Hrun as [Hret Hlist].
  split; [exact Hret | split; [exact Hlist |]].
  rewrite Hlist. repeat split.
  intros Hkeeps. subst previous. now rewrite Hkeeps.
Qed.

End ViewFacts.

(** ** The remote service client *)

Section ClientFacts.
Import JS Eff apiService.
Context {E : Engine} {S : Type}.
Variable VITE_API_URL : option string.
Variable server : request -> outcome response.

Lemma str_or_nonempty (s d : string) : d <> "" -> str_or s d <> "".
Proof.
  intros Hd. unfold str_or.
  destruct (String.eqb_spec s ""); [exact Hd | assumption].
Qed.

(** Every path of [login] ends in a [return]: the [catch] block covers the
    whole body. *)
Lemma login_returns (username password : string) (w : world S) :
  exists v, fst (login VITE_API_URL server username password w) = Returned v.
Proof.
  unfold login, try_catch, bind, fetch, response_json, console_error, ret.
  destruct (server _) as [resp | e]; cbn; [|eauto].
  destruct (resp_json resp) as [data | e]; cbn; [|eauto].
  destruct (ok resp); cbn; [eauto |].
  destruct (get_field data "message") as [e | message]; cbn; [eauto |].
  destruct (toString (or_else message (JStr "Login failed"))); cbn; eauto.
Qed.

Lemma login_failure (username password : string) (w : world S) :
  failure (server (login_request VITE_API_URL username password)) ->
  exists message,
    message <> ""
    /\ fst (login VITE_API_URL server username password w)
       = Returned (login_failed message).
Proof.
  intros Hfail.
  unfold login, try_catch, bind, fetch, response_json, console_error, ret.
  destruct (server _) as [resp | e]; cbn in *.
  - rewrite Hfail.
    destruct (resp_json resp) as [data | e]; cbn.
    + destruct (get_field data "message") as [e | message]; cbn;
        [|destruct (toString (or_else message (JStr "Login failed")));
          cbn];
        eexists; (split; [|reflexivity]); now apply str_or_nonempty.
    + eexists; (split; [|reflexivity]); now apply str_or_nonempty.
  - eexists; (split; [|reflexivity]); now apply str_or_nonempty.
Qed.

Lemma validateToken_returns (w : world S) :
  exists valid,
    fst (validateToken VITE_API_URL server w) = Returned (validation valid).
Proof.
  unfold validateToken, try_catch, bind, getItem, fetch, console_error, ret.
  cbn. destruct (truthy_str _); cbn; [|eauto].
  destruct (server _) as [resp | e]; cbn; [|eauto].
  destruct (ok resp); cbn; eauto.
Qed.

Lemma validateToken_failure (w : world S) :
  failure (server (validate_request VITE_API_URL
                     (localStorage w !! tokenKey))) ->
  fst (validateToken VITE_API_URL server w) = Returned (validation false).
Proof.
  intros Hfail.
  unfold validateToken, try_catch, bind, getItem, fetch, console_error, ret.
  cbn. destruct (truthy_str _); cbn; [|reflexivity].
  destruct (server _) as [resp | e]; cbn in *; [|reflexivity].
  now rewrite Hfail.
Qed.

Lemma getStatus_returns (w : world S) :
  exists v, fst (getStatus VITE_API_URL server w) = Returned v.
Proof.
  unfold getStatus, try_catch, bind, getItem, fetch, response_json,
    console_error, ret, throw.
  cbn. destruct (server _) as [resp | e]; cbn; [|eauto].
  destruct (ok resp); cbn; [|eauto].
  destruct (resp_json resp); cbn; eauto.
Qed.

Lemma getStatus_failure (w : world S) :
  failure (server (status_request VITE_API_URL
                     (localStorage w !! tokenKey))) ->
  fst (getStatus VITE_API_URL server w) = Returned status_fallback.
Proof.
  intros Hfail.
  unfold getStatus, try_catch, bind, getItem, fetch, response_json,
    console_error, ret, throw.
  cbn. destruct (server _) as [resp | e]; cbn in *; [|reflexivity].
  now rewrite Hfail.
Qed.

Lemma getTasks_returns (w : world S) :
  exists v, fst (getTasks VITE_API_URL server w) = Returned v.
Proof.
  unfold getTasks, try_catch, bind, getItem, fetch, response_json,
    console_error, ret, throw.
  cbn. destruct (server _) as [resp | e]; cbn; [|eauto].
  destruct (ok resp); cbn; [|eauto].
  destruct (resp_json resp); cbn; eauto.
Qed.

Lemma getTasks_failure (w : world S) :
  failure (server (tasks_request VITE_API_URL
                     (localStorage w !! tokenKey))) ->
  fst (getTasks VITE_API_URL server w) = Returned (JArr []).
Proof.
  intros Hfail.
  unfold getTasks, try_catch, bind, getItem, fetch, response_json,
    console_error, ret, throw.
  cbn. destruct (server _) as [resp | e]; cbn in *; [|reflexivity].
  now rewrite Hfail.
Qed.

(** C3. When the call fails (the network rejects it, or the status is not
    a success), [login] returns [{success: false, message}] with a
    non-empty message, [validateToken] returns [{valid: false}],
    [getStatus] returns the zeroed status and [getTasks] the empty list;
    and none of the four ever throws, whatever the service does. *)
Theorem failures_are_swallowed
    (username password : string) (w : world S) :
  let token := localStorage w !! tokenKey in
  (failure (server (login_request VITE_API_URL username password)) ->
   exists message,
     message <> ""
     /\ fst (login VITE_API_URL server username password w)
        = Returned (JObj [("success", JBool false);
                          ("message", JStr message)]))
  /\ (failure (server (validate_request VITE_API_URL token)) ->
      fst (validateToken VITE_API_URL server w)
      = Returned (JObj [("valid", JBool false)]))
  /\ (failure (server (status_request VITE_API_URL token)) ->
      fst (getStatus VITE_API_URL server w)
      = Returned (JObj [("availablePhones", JNum zero);
                        ("busyPhones", JNum zero);
                        ("averageProcessingTime", JNum zero)]))
  /\ (failure (server (tasks_request VITE_API_URL token)) ->
      fst (getTasks VITE_API_URL server w) = Returned (JArr []))
  /\ (forall e,
        fst (login VITE_API_URL server username password w) <> Thrown e
        /\ fst (validateToken VITE_API_URL server w) <> Thrown e
        /\ fst (getStatus VITE_API_URL server w) <> Thrown e
        /\ fst (getTasks VITE_API_URL server w) <> Thrown e).
Proof.
  intros token. repeat split.
  - apply login_failure.
  - apply validateToken_failure.
  - apply getStatus_failure.
  - apply getTasks_failure.
  - destruct (login_returns username password w) as [v ->]. discriminate.
  - destruct (validateToken_returns w) as [v ->]. discriminate.
  - destruct (getStatus_returns w) as [v ->]. discriminate.
  - destruct (getTasks_returns w) as [v ->]. discriminate.
Qed.

(** C7. With no token in the session store, [validateToken] returns
    [{valid: false}] and leaves the world as it found it: no request is
    handed to [fetch]. *)
Theorem validateToken_without_token (w : world S) :
  localStorage w !! tokenKey = None ->
  validateToken VITE_API_URL server w
    = (Returned (JObj [("valid", JBool false)]), w)
  /\ requests (snd (validateToken VITE_API_URL server w)) = requests w.
Proof.
  intros Hnone.
  assert (Hrun : validateToken VITE_API_URL server w
                 = (Returned (validation false), w)).
  { unfold validateToken, try_catch, bind, getItem. now rewrite Hnone. }
  rewrite Hrun. split; reflexivity.
Qed.

(** C4, as the code has it.  [submitTask] raises on every failure and
    never returns a fallback: a network error is passed on as it is; on a
    status that is not a success, when the body parses, the error carries
    the body's [message] converted to a string if that is truthy and
    "Failed to submit task" otherwise; when the body does not parse, or is
    [null], or has a [message] that cannot be converted to a string (an
    object with a [toString] property of its own), the error of the
    parser, of the property read or of the conversion is passed on
    instead.  The other four operations never raise. *)
Theorem submitTask_propagates
    (code : utf16) (file : option File) (w : world S) :
  let req :=
    submit_request VITE_API_URL (localStorage w !! tokenKey) code file in
  let outcome_of := fst (submitTask VITE_API_URL server code file w) in
  (failure (server req) -> exists e, outcome_of = Thrown e)
  /\ (forall e, server req = Thrown e -> outcome_of = Thrown e)
  /\ (forall resp errorData message text,
        server req = Returned resp -> ok resp = false ->
        resp_json resp = Returned errorData ->
        get_field errorData "message" = inr message ->
        toString (or_else message (JStr "Failed to submit task"))
          = inr text ->
        outcome_of = Thrown (new_Error text))
  /\ (forall resp props text,
        server req = Returned resp -> ok resp = false ->
        resp_json resp = Returned (JObj props) ->
        assoc "message" props = Some (JStr text) -> text <> "" ->
        outcome_of = Thrown (new_Error text))
  /\ (forall resp props,
        server req = Returned resp -> ok resp = false ->
        resp_json resp = Returned (JObj props) ->
        assoc "message" props = None ->
        outcome_of = Thrown (new_Error "Failed to submit task"))
  /\ (forall resp e,
        server req = Returned resp -> ok resp = false ->
        resp_json resp = Thrown e \/
        (exists errorData,
           resp_json resp = Returned errorData
           /\ (get_field errorData "message" = inl e
               \/ exists message,
                    get_field errorData "message" = inr message
                    /\ toString
                         (or_else message (JStr "Failed to submit task"))
                       = inl e)) ->
        outcome_of = Thrown e)
  /\ (forall resp props inner,
        server req = Returned resp -> ok resp = false ->
        resp_json resp = Returned (JObj props) ->
        assoc "message" props = Some (JObj inner) ->
        assoc "toString" inner <> None ->
        outcome_of = Thrown not_primitive)
  /\ (forall username password e,
        fst (login VITE_API_URL server username password w) <> Thrown e
        /\ fst (validateToken VITE_API_URL server w) <> Thrown e
        /\ fst (getStatus VITE_API_URL server w) <> Thrown e
        /\ fst (getTasks VITE_API_URL server w) <> Thrown e).
Proof.
  intros req outcome_of.
  assert (Hnet : forall e, server req = Thrown e -> outcome_of = Thrown e).
  { intros e He. subst outcome_of req.
    unfold submitTask, try_catch, bind, getItem, fetch. cbn.
    now rewrite He. }
  assert (Hbody : forall resp errorData message,
    server req = Returned resp -> ok resp = false ->
    resp_json resp = Returned errorData ->
    get_field errorData "message" = inr message ->
    outcome_of =
      match toString (or_else message (JStr "Failed to submit task")) with
      | inr text => Thrown (new_Error text)
      | inl e => Thrown e
      end).
  { intros resp errorData message Hresp Hok Hjson Hfield.
    subst outcome_of req.
    unfold submitTask, try_catch, bind, getItem, fetch, response_json. cbn.
    rewrite Hresp. cbn. rewrite Hok. cbn. rewrite Hjson. cbn.
    rewrite Hfield. cbn.
    now destruct (toString (or_else message (JStr "Failed to submit task"))). }
  assert (Hraw : forall resp e,
    server req = Returned resp -> ok resp = false ->
    resp_json resp = Thrown e \/
    (exists errorData, resp_json resp = Returned errorData
                       /\ get_field errorData "message" = inl e) ->
    outcome_of = Thrown e).
  { intros resp e Hresp Hok Hcase. subst outcome_of req.
    unfold submitTask, try_catch, bind, getItem, fetch, response_json. cbn.
    rewrite Hresp. cbn. rewrite Hok. cbn.
    destruct Hcase as [Hjson | (errorData & Hjson & Hfield)];
      rewrite Hjson; cbn; [reflexivity |].
    now rewrite Hfield. }
  split; [|split; [exact Hnet | split; [|split; [|split; [|split;
    [|split]]]]]].
  - intros Hfail. destruct (server req) as [resp | e] eqn:Hresp.
    + cbn in Hfail.
      destruct (resp_json resp) as [errorData | e] eqn:Hjson.
      * destruct (get_field errorData "message") as [e | message] eqn:Hf.
        -- exists e. apply (Hraw resp); eauto.
        -- rewrite (Hbody resp errorData message); auto.
           destruct (toString _); eauto.
      * exists e. apply (Hraw resp); auto.
    + exists e. now apply Hnet.
  - intros resp errorData message text Hresp Hok Hjson Hfield Htext.
    rewrite (Hbody resp errorData message); auto. now rewrite Htext.
  - intros resp props text Hresp Hok Hjson Hmsg Htext.
    rewrite (Hbody resp (JObj props) (Some (JStr text))); auto.
    + cbn. apply String.eqb_neq in Htext. now rewrite Htext.
    + cbn. now rewrite Hmsg.
  - intros resp props Hresp Hok Hjson Hmsg.
    rewrite (Hbody resp (JObj props) None); auto.
    cbn. now rewrite Hmsg.
  - intros resp e Hresp Hok [Hjson | (errorData & Hjson & Hcase)].
    + apply (Hraw resp); auto.
    + destruct Hcase as [Hfield | (message & Hfield & Htext)].
      * apply (Hraw resp); eauto.
      * rewrite (Hbody resp errorData message); auto. now rewrite Htext.
  - intros resp props inner Hresp Hok Hjson Hmsg Hown.
    rewrite (Hbody resp (JObj props) (Some (JObj inner))); auto.
    + cbn. now destruct (assoc "toString" inner).
    + cbn. now rewrite Hmsg.
  - intros username password e. repeat split.
    + destruct (login_returns username password w) as [v ->]. discriminate.
    + destruct (validateToken_returns w) as [v ->]. discriminate.
    + destruct (getStatus_returns w) as [v ->]. discriminate.
    + destruct (getTasks_returns w) as [v ->]. discriminate.
Qed.

End ClientFacts.

(** ** The authenticated-session context *)

Section SessionFacts.
Import JS AuthContext.

(** C2, as the code has it.  [isAuthenticated] is [!!userToken]: it is
    true exactly when the token is a non-empty string; with the empty
    string for a token the session is not authenticated. *)
Theorem isAuthenticated_iff_token_nonempty (st : state) :
  isAuthenticated (value st) = true <->
  exists token, userToken st = Some token /\ token <> "".
Proof.
  unfold value. cbn. destruct (userToken st) as [token|]; cbn.
  - destruct (String.eqb_spec token "") as [-> | Hne]; cbn.
    + split; [discriminate | intros (t & [= <-] & Ht); congruence].
    + split; [eauto | reflexivity].
  - split; [discriminate | intros (t & Ht & _); discriminate].
Qed.

End SessionFacts.

(** ** The properties at concrete inputs *)

Section Instances.
Import JS Eff Sample.

(** The empty string under the token key is a token, and the session built
    from it is not authenticated. *)
Lemma isAuthenticated_empty_token :
  let st := AuthContext.AuthProvider {[ apiService.tokenKey := "" ]} in
  AuthContext.userToken st = Some ""
  /\ ~ (AuthContext.isAuthenticated (AuthContext.value st) = true
        <-> AuthContext.userToken st <> None).
Proof.
  cbv zeta. unfold AuthContext.AuthProvider. rewrite lookup_singleton_eq.
  split; [reflexivity |]. cbn. intros [_ Hback].
  discriminate Hback. discriminate.
Qed.

(** Behind a gateway that answers 502 with a page that is not JSON,
    [submitTask] raises the parser's error: its message is neither taken
    from a body nor the generic one. *)
Lemma submitTask_unparsed_body :
  let w := fresh (S := unit) {[ apiService.tokenKey := "mock-token-12345" ]} tt in
  let req :=
    apiService.submit_request None (Some "mock-token-12345") [49%N] None in
  let outcome_of :=
    fst (apiService.submitTask None bad_gateway [49%N] None w) in
  (exists resp e,
     bad_gateway req = Returned resp /\ ok resp = false
     /\ resp_json resp = Thrown e)
  /\ outcome_of = Thrown (mkExn "SyntaxError" "Unexpected token '<'")
  /\ ~ (exists text,
          outcome_of = Thrown (new_Error text)
          /\ (text = "Failed to submit task"
              \/ exists resp errorData value,
                   bad_gateway req = Returned resp
                   /\ resp_json resp = Returned errorData
                   /\ get_field errorData "message" = inr (Some value)
                   /\ toString value = inr text)).
Proof.
  cbv zeta.
  assert (Hrun : fst (apiService.submitTask None bad_gateway [49%N] None
                        (fresh (S := unit)
                           {[ apiService.tokenKey := "mock-token-12345" ]} tt))
                 = Thrown (mkExn "SyntaxError" "Unexpected token '<'")).
  { unfold apiService.submitTask, try_catch, bind, getItem, fetch. cbn.
    reflexivity. }
  split; [|split; [exact Hrun |]].
  - eexists _, _. repeat split.
  - rewrite Hrun. intros (text & Heq & _). discriminate Heq.
Qed.

Lemma formatEstimatedTime_rounds_half_up_witness :
  TaskSubmissionPage.formatEstimatedTime midnight
    (task_due (Some "2026-01-01T00:01:30.000Z")) = "2 minutes".
Proof.
  pose proof (formatEstimatedTime_rounds_half_up (E := engine)
                midnight 1767225690000
                (task_due (Some "2026-01-01T00:01:30.000Z"))
                "2026-01-01T00:01:30.000Z"
                eq_refl ltac:(discriminate) eq_refl ltac:(discriminate))
    as Hw.
  cbv zeta in Hw. destruct Hw as (_ & H90 & _).
  apply H90. reflexivity.
Defined.

Lemma formatEstimatedTime_unknown_witness :
  TaskSubmissionPage.formatEstimatedTime midnight (task_due (Some ""))
  = "Unknown"
  /\ TaskSubmissionPage.formatEstimatedTime 0 (task_due None) = "Unknown".
Proof.
  split.
  - apply (formatEstimatedTime_unknown (E := engine)). right. reflexivity.
  - apply (formatEstimatedTime_unknown (E := engine)). left. reflexivity.
Defined.

Lemma handleFileChange_size_boundary_witness :
  TaskSubmissionPage.error
    (component
       (snd (TaskSubmissionPage.handleFileChange
               (Some (mkFile "big.js" "text/javascript" 5242881))
               (fresh signed_in (typed [])))))
  = Some "File size exceeds the maximum limit of 5MB"
  /\ TaskSubmissionPage.file
       (component
          (snd (TaskSubmissionPage.handleFileChange
                  (Some (mkFile "edge.js" "text/javascript" 5242880))
                  (fresh signed_in (typed [])))))
     = Some (mkFile "edge.js" "text/javascript" 5242880).
Proof.
  split.
  - destruct (handleFileChange_size_boundary (E := engine)
                (mkFile "big.js" "text/javascript" 5242881)
                (fresh signed_in (typed []))) as [Hbig _].
    destruct (Hbig ltac:(cbn; lia)) as [Hrun _].
    rewrite Hrun. reflexivity.
  - destruct (handleFileChange_size_boundary (E := engine)
                (mkFile "edge.js" "text/javascript" 5242880)
                (fresh signed_in (typed []))) as [_ Hedge].
    apply Hedge; [reflexivity |].
    left. cbn. unfold TaskSubmissionPage.allowedTypes.
    apply list_elem_of_here.
Defined.

Lemma handleFileChange_type_check_witness :
  let f := mkFile "script.js" "" 120 in
  let after :=
    snd (TaskSubmissionPage.handleFileChange (Some f)
           (fresh signed_in (typed []))) in
  let g := mkFile "payload" "application/json" 2048 in
  let h := mkFile "notes.md" "text/markdown" 2048 in
  (TaskSubmissionPage.file (component after) = Some f
   /\ TaskSubmissionPage.error (component after) = None)
  /\ snd (TaskSubmissionPage.handleFileChange (Some g)
            (fresh signed_in (typed [])))
     = with_component
         (fun st =>
            TaskSubmissionPage.setError None
              (TaskSubmissionPage.setFile (Some g) st))
         (fresh signed_in (typed []))
  /\ snd (TaskSubmissionPage.handleFileChange (Some h)
            (fresh signed_in (typed [])))
     = with_component
         (TaskSubmissionPage.setError
            (Some "Please upload a JavaScript file (.js) or JSON data file"))
         (fresh signed_in (typed [])).
Proof.
  cbv zeta. split; [|split].
  - pose proof (handleFileChange_type_check (E := engine)
                  (mkFile "script.js" "" 120) (fresh signed_in (typed []))
                  ltac:(cbn; lia)) as Hw.
    cbv zeta in Hw. destruct Hw as (_ & _ & _ & _ & Hscript & _).
    apply Hscript; reflexivity.
  - pose proof (handleFileChange_type_check (E := engine)
                  (mkFile "payload" "application/json" 2048)
                  (fresh signed_in (typed [])) ltac:(cbn; lia)) as Hw.
    cbv zeta in Hw. destruct Hw as (_ & Hyes & _).
    apply Hyes. right. right. left. reflexivity.
  - pose proof (handleFileChange_type_check (E := engine)
                  (mkFile "notes.md" "text/markdown" 2048)
                  (fresh signed_in (typed [])) ltac:(cbn; lia)) as Hw.
    cbv zeta in Hw. destruct Hw as (_ & _ & Hno & _).
    apply Hno. cbn.
    intros [Ht | [Ht | [Ht | [Ht | (stem & Hname)]]]];
      try discriminate Ht.
    assert (Hends : endsWith "notes.md" ".js" = true)
      by (apply endsWith_spec; eauto).
    discriminate Hends.
Defined.

Lemma handleSubmit_empty_witness :
  let after :=
    snd (TaskSubmissionPage.handleSubmit None (accepts new_task) id
           (fresh signed_in (typed [32%N; 10%N]))) in
  requests after = []
  /\ TaskSubmissionPage.userTasks (component after) = [old_task].
Proof.
  cbv zeta.
  pose proof (handleSubmit_empty (E := engine) None (accepts new_task) id
                (fresh signed_in (typed [32%N; 10%N]))
                ltac:(repeat constructor) eq_refl) as Hw.
  cbv zeta in Hw. destruct Hw as (_ & _ & Hreq & Htasks).
  split; [exact Hreq | exact Htasks].
Defined.

Lemma handleSubmit_prepends_witness :
  TaskSubmissionPage.userTasks
    (component
       (snd (TaskSubmissionPage.handleSubmit None (accepts new_task) id
               (fresh signed_in (typed [49%N])))))
  = [new_task; old_task].
Proof.
  pose proof (handleSubmit_prepends (E := engine) None (accepts new_task) id
                (fresh signed_in (typed [49%N]))
                (mkResponse 200 (Returned new_task)) new_task) as Hw.
  cbv zeta in Hw.
  destruct Hw as (_ & Hlist & _).
  - intros [Hblank _]. inversion Hblank as [|c r Hc Hr]. discriminate Hc.
  - reflexivity.
  - reflexivity.
  - reflexivity.
  - exact Hlist.
Defined.

Lemma failures_are_swallowed_witness :
  let w := fresh (S := unit) signed_in tt in
  (exists message,
     message <> ""
     /\ fst (apiService.login None offline "test" "password" w)
        = Returned (JObj [("success", JBool false);
                          ("message", JStr message)]))
  /\ fst (apiService.validateToken None offline w)
     = Returned (JObj [("valid", JBool false)])
  /\ fst (apiService.getStatus None offline w)
     = Returned (JObj [("availablePhones", @JNum engine 0);
                       ("busyPhones", @JNum engine 0);
                       ("averageProcessingTime", @JNum engine 0)])
  /\ fst (apiService.getTasks None offline w) = Returned (JArr []).
Proof.
  cbv zeta.
  pose proof (failures_are_swallowed (E := engine) None offline
                "test" "password" (fresh (S := unit) signed_in tt)) as Hw.
  cbv zeta in Hw. destruct Hw as (Hlogin & Hvalidate & Hstatus & Htasks & _).
  split; [apply Hlogin; exact I |].
  split; [apply Hvalidate; exact I |].
  split; [apply Hstatus; exact I | apply Htasks; exact I].
Defined.

Lemma validateToken_without_token_witness :
  apiService.validateToken None (accepts (JObj [])) (fresh (S := unit) ∅ tt)
  = (Returned (JObj [("valid", JBool false)]), fresh ∅ tt).
Proof.
  apply (validateToken_without_token (E := engine) None (accepts (JObj []))
           (fresh (S := unit) ∅ tt)).
  apply lookup_empty.
Defined.

Lemma submitTask_propagates_witness :
  fst (apiService.submitTask None (refuses "quota exceeded") [49%N] None
         (fresh (S := unit) signed_in tt))
  = Thrown (new_Error "quota exceeded")
  /\ fst (apiService.submitTask None bad_gateway [49%N] None
            (fresh (S := unit) signed_in tt))
     = Thrown (mkExn "SyntaxError" "Unexpected token '<'")
  /\ fst (apiService.submitTask None
            (refuses_with
               (JObj [("message", JObj [("toString", @JNum engine 1)])]))
            [49%N] None (fresh (S := unit) signed_in tt))
     = Thrown (mkExn "TypeError" "Cannot convert object to primitive value").
Proof.
  split; [|split].
  - pose proof (submitTask_propagates (E := engine) None
                  (refuses "quota exceeded") [49%N] None
                  (fresh (S := unit) signed_in tt)) as Hw.
    cbv zeta in Hw. destruct Hw as (_ & _ & _ & Htext & _).
    apply (Htext (mkResponse 400
                    (Returned (JObj [("message", JStr "quota exceeded")])))
                 [("message", JStr "quota exceeded")]);
      [reflexivity | reflexivity | reflexivity | reflexivity | discriminate].
  - pose proof (submitTask_propagates (E := engine) None bad_gateway
                  [49%N] None (fresh (S := unit) signed_in tt)) as Hw.
    cbv zeta in Hw. destruct Hw as (_ & _ & _ & _ & _ & Hraw & _).
    apply (Hraw (mkResponse 502
                   (Thrown (mkExn "SyntaxError" "Unexpected token '<'"))));
      [reflexivity | reflexivity | left; reflexivity].
  - pose proof (submitTask_propagates (E := engine) None
                  (refuses_with
                     (JObj [("message",
                             JObj [("toString", @JNum engine 1)])]))
                  [49%N] None (fresh (S := unit) signed_in tt)) as Hw.
    cbv zeta in Hw. destruct Hw as (_ & _ & _ & _ & _ & _ & Hown & _).
    apply (Hown (mkResponse 400
                   (Returned
                      (JObj [("message",
                              JObj [("toString", @JNum engine 1)])])))
                [("message", JObj [("toString", @JNum engine 1)])]
                [("toString", @JNum engine 1)]);
      [reflexivity | reflexivity | reflexivity | reflexivity
      | discriminate].
Defined.

End Instances.

(** ** The remote service client, path by path *)

Section ClientRuns.
Import JS Eff apiService.
Context {E : Engine} {S : Type}.
Variable VITE_API_URL : option string.
Variable server : request -> outcome response.

Lemma login_run (username password : string) (w : world S) :
  let req := login_request VITE_API_URL username password in
  let caught e :=
    (Returned (login_failed (str_or (exn_message e) "Login failed")),
     called w req [("Login error:", e)]) in
  login VITE_API_URL server username password w =
  match server req with
  | Thrown e => caught e
  | Returned resp =>
      match resp_json resp with
      | Thrown e => caught e
      | Returned data =>
          if ok resp then (Returned data, called w req [])
          else
            match get_field data "message" with
            | inl e => caught e
            | inr message =>
                match toString (or_else message (JStr "Login failed")) with
                | inl e => caught e
                | inr text => caught (new_Error text)
                end
            end
      end
  end.
Proof.
  cbv zeta. unfold called.
  unfold login, try_catch, bind, fetch, response_json, console_error, ret.
  destruct (server _) as [resp | e]; cbn; [|reflexivity].
  destruct (resp_json resp) as [data | e]; cbn; [|reflexivity].
  destruct (ok resp); cbn; [now rewrite app_nil_r |].
  destruct (get_field data "message") as [e | message]; cbn;
    [reflexivity |].
  destruct (toString (or_else message (JStr "Login failed"))); reflexivity.
Qed.

Lemma validateToken_run (w : world S) :
  let token := localStorage w !! tokenKey in
  let req := validate_request VITE_API_URL token in
  validateToken VITE_API_URL server w =
  if truthy_str token then
    match server req with
    | Thrown e =>
        (Returned (validation false),
         called w req [("Token validation error:", e)])
    | Returned resp => (Returned (validation (ok resp)), called w req [])
    end
  else (Returned (validation false), w).
Proof.
  cbv zeta. unfold called.
  unfold validateToken, try_catch, bind, getItem, fetch, console_error, ret.
  cbn. destruct (truthy_str _); cbn; [|reflexivity].
  destruct (server _) as [resp | e]; cbn; [|reflexivity].
  rewrite app_nil_r. destruct (ok resp); reflexivity.
Qed.

(** [getStatus] and [getTasks] differ in the path, the message of the
    error they raise on a bad status, the label they log under and the
    fallback they return. *)
Lemma getStatus_run (w : world S) :
  let req := status_request VITE_API_URL (localStorage w !! tokenKey) in
  let caught e :=
    (Returned status_fallback,
     called w req [("Error fetching status:", e)]) in
  getStatus VITE_API_URL server w =
  match server req with
  | Thrown e => caught e
  | Returned resp =>
      if ok resp then
        match resp_json resp with
        | Thrown e => caught e
        | Returned data => (Returned data, called w req [])
        end
      else caught (new_Error "Failed to fetch status")
  end.
Proof.
  cbv zeta. unfold called.
  unfold getStatus, try_catch, bind, getItem, fetch, response_json,
    console_error, ret, throw.
  cbn. destruct (server _) as [resp | e]; cbn; [|reflexivity].
  destruct (ok resp); cbn; [|reflexivity].
  destruct (resp_json resp); cbn; [now rewrite app_nil_r | reflexivity].
Qed.

Lemma getTasks_run (w : world S) :
  let req := tasks_request VITE_API_URL (localStorage w !! tokenKey) in
  let caught e :=
    (Returned (JArr []), called w req [("Error fetching tasks:", e)]) in
  getTasks VITE_API_URL server w =
  match server req with
  | Thrown e => caught e
  | Returned resp =>
      if ok resp then
        match resp_json resp with
        | Thrown e => caught e
        | Returned data => (Returned data, called w req [])
        end
      else caught (new_Error "Failed to fetch tasks")
  end.
Proof.
  cbv zeta. unfold called.
  unfold getTasks, try_catch, bind, getItem, fetch, response_json,
    console_error, ret, throw.
  cbn. destruct (server _) as [resp | e]; cbn; [|reflexivity].
  destruct (ok resp); cbn; [|reflexivity].
  destruct (resp_json resp); cbn; [now rewrite app_nil_r | reflexivity].
Qed.

Lemma submitTask_run (code : utf16) (file : option File) (w : world S) :
  let req :=
    submit_request VITE_API_URL (localStorage w !! tokenKey) code file in
  let raised e :=
    (Thrown e, called w req [("Error submitting task:", e)]) in
  submitTask VITE_API_URL server code file w =
  match server req with
  | Thrown e => raised e
  | Returned resp =>
      match resp_json resp with
      | Thrown e => raised e
      | Returned data =>
          if ok resp then (Returned data, called w req [])
          else
            match get_field data "message" with
            | inl e => raised e
            | inr message =>
                match toString
                        (or_else message (JStr "Failed to submit task")) with
                | inl e => raised e
                | inr text => raised (new_Error text)
                end
            end
      end
  end.
Proof.
  cbv zeta. unfold called.
  unfold submitTask, try_catch, bind, getItem, fetch, response_json,
    console_error, ret, throw.
  cbn. destruct (server _) as [resp | e]; cbn; [|reflexivity].
  destruct (ok resp); cbn.
  - destruct (resp_json resp); cbn; [now rewrite app_nil_r | reflexivity].
  - destruct (resp_json resp) as [data | e]; cbn; [|reflexivity].
    destruct (get_field data "message") as [e | message]; cbn;
      [reflexivity |].
    destruct (toString (or_else message (JStr "Failed to submit task")));
      reflexivity.
Qed.

(** X1. The service client only reads the session store: none of its five
    operations changes the local storage, the state of the calling
    component or the scroll position, whatever the service answers. *)
Theorem apiService_frame
    (username password : string) (code : utf16) (file : option File)
    (w : world S) :
  let untouched (after : world S) :=
    localStorage after = localStorage w
    /\ component after = component w
    /\ scrolled after = scrolled w in
  untouched (snd (login VITE_API_URL server username password w))
  /\ untouched (snd (validateToken VITE_API_URL server w))
  /\ untouched (snd (getStatus VITE_API_URL server w))
  /\ untouched (snd (getTasks VITE_API_URL server w))
  /\ untouched (snd (submitTask VITE_API_URL server code file w)).
Proof.
  cbv zeta.
  rewrite login_run, validateToken_run, getStatus_run, getTasks_run,
    submitTask_run.
  cbv zeta. repeat apply conj;
    repeat match goal with
           | |- context [match ?x with _ => _ end] => destruct x
           end; reflexivity.
Qed.

(** X2. Every call of [login], [getStatus], [getTasks] and [submitTask]
    hands exactly one request to [fetch], on every path; [validateToken]
    hands one when the stored token is a non-empty string and none
    otherwise (also for the empty string).  Earlier entries of the log
    stay. *)
Theorem apiService_requests
    (username password : string) (code : utf16) (file : option File)
    (w : world S) :
  let token := localStorage w !! tokenKey in
  requests (snd (login VITE_API_URL server username password w))
    = requests w ++ [login_request VITE_API_URL username password]
  /\ requests (snd (validateToken VITE_API_URL server w))
     = requests w ++
         (if truthy_str token then [validate_request VITE_API_URL token]
          else [])
  /\ requests (snd (getStatus VITE_API_URL server w))
     = requests w ++ [status_request VITE_API_URL token]
  /\ requests (snd (getTasks VITE_API_URL server w))
     = requests w ++ [tasks_request VITE_API_URL token]
  /\ requests (snd (submitTask VITE_API_URL server code file w))
     = requests w ++ [submit_request VITE_API_URL token code file].
Proof.
  cbv zeta.
  rewrite login_run, validateToken_run, getStatus_run, getTasks_run,
    submitTask_run.
  cbv zeta. repeat apply conj;
    repeat match goal with
           | |- context [match ?x with _ => _ end] => destruct x
           end; cbn; rewrite ?app_nil_r; reflexivity.
Qed.

(** X3. With no token in the session store, [getStatus], [getTasks] and
    [submitTask] still send their request, and its only header is
    [Authorization: Bearer null]. *)
Theorem bearer_null_without_token
    (code : utf16) (file : option File) (w : world S) :
  localStorage w !! tokenKey = None ->
  let sent (after : world S) :=
    exists req,
      requests after = requests w ++ [req]
      /\ req_headers req = [("Authorization", "Bearer null")] in
  sent (snd (getStatus VITE_API_URL server w))
  /\ sent (snd (getTasks VITE_API_URL server w))
  /\ sent (snd (submitTask VITE_API_URL server code file w)).
Proof.
  intros Hnone. cbv zeta.
  rewrite getStatus_run, getTasks_run, submitTask_run. cbv zeta.
  rewrite Hnone.
  repeat apply conj;
    repeat match goal with
           | |- context [match ?x with _ => _ end] => destruct x
           end; eexists; (split; [reflexivity | reflexivity]).
Qed.

(** X4. [validateToken] answers [{valid: true}] exactly when a non-empty
    token is stored and the service answers the validation request with a
    success status; the body of the answer is never read.  In every other
    case it answers [{valid: false}]. *)
Theorem validateToken_valid_iff (w : world S) :
  (fst (validateToken VITE_API_URL server w) = Returned (validation true)
   <-> exists token resp,
         localStorage w !! tokenKey = Some token /\ token <> ""
         /\ server (validate_request VITE_API_URL (Some token))
            = Returned resp
         /\ ok resp = true)
  /\ (fst (validateToken VITE_API_URL server w) = Returned (validation true)
      \/ fst (validateToken VITE_API_URL server w)
         = Returned (validation false)).
Proof.
  rewrite validateToken_run. cbv zeta.
  destruct (localStorage w !! tokenKey) as [token|] eqn:Htoken; cbn.
  - destruct (String.eqb_spec token "") as [-> | Hne]; cbn.
    + split; [|now right].
      split; [discriminate |].
      intros (t & resp & [= <-] & Ht & _). congruence.
    + destruct (server _) as [resp | e] eqn:Hresp; cbn.
      * destruct (ok resp) eqn:Hok; (split; [|auto]); split.
        -- intros _. exists token, resp. auto.
        -- reflexivity.
        -- discriminate.
        -- intros (t & r & [= <-] & _ & Hr & Hokr).
           rewrite Hresp in Hr. injection Hr as <-. congruence.
      * split; [|now right]. split; [discriminate |].
        intros (t & r & [= <-] & _ & Hr & _). congruence.
  - split; [|now right]. split; [discriminate |].
    intros (t & r & Ht & _). discriminate.
Qed.

(** X5. [login] either hands back the parsed body of a success answer as
    it is, whatever it says, and logs nothing; or returns
    [{success: false, message}] with a non-empty message and logs the
    error once.  It hands back the body exactly when the status is a
    success and the body parses. *)
Theorem login_body_or_failure
    (username password : string) (w : world S) :
  let req := login_request VITE_API_URL username password in
  let run := login VITE_API_URL server username password w in
  (exists resp data,
     server req = Returned resp /\ ok resp = true
     /\ resp_json resp = Returned data
     /\ fst run = Returned data
     /\ console (snd run) = console w)
  \/ (~ (exists resp data,
           server req = Returned resp /\ ok resp = true
           /\ resp_json resp = Returned data)
      /\ exists message e,
           message <> ""
           /\ fst run = Returned (login_failed message)
           /\ console (snd run) = console w ++ [("Login error:", e)]).
Proof.
  cbv zeta. rewrite login_run. cbv zeta.
  assert (Hmsg : forall e, str_or (exn_message e) "Login failed" <> "").
  { intros e. now apply str_or_nonempty. }
  destruct (server _) as [resp | e] eqn:Hresp.
  - destruct (resp_json resp) as [data | e] eqn:Hjson.
    + destruct (ok resp) eqn:Hok.
      * left. exists resp, data. cbn. rewrite app_nil_r. auto.
      * right. split.
        { intros (r & d & [= <-] & Hokr & _). congruence. }
        destruct (get_field data "message") as [e | message];
          [|destruct (toString (or_else message (JStr "Login failed")))];
          eexists _, _; (split; [apply Hmsg | split; reflexivity]).
    + right. split.
      { intros (r & d & [= <-] & _ & Hd). congruence. }
      eexists _, _; (split; [apply Hmsg | split; reflexivity]).
  - right. split.
    { intros (r & d & Hr & _). discriminate. }
    eexists _, _; (split; [apply Hmsg | split; reflexivity]).
Qed.

(** X6. The message [login] reports on a failure: the message of the
    network error; on a refusal whose body is an object, the body's
    [message] when it is a non-empty string and "Login failed" when the
    body has none; the parser's message when the body does not parse; and
    "Login failed" in place of any empty message. *)
Theorem login_failure_message
    (username password : string) (w : world S) :
  let req := login_request VITE_API_URL username password in
  let result := fst (login VITE_API_URL server username password w) in
  (forall e, server req = Thrown e ->
     result = Returned (login_failed (str_or (exn_message e) "Login failed")))
  /\ (forall resp props text,
        server req = Returned resp -> ok resp = false ->
        resp_json resp = Returned (JObj props) ->
        assoc "message" props = Some (JStr text) -> text <> "" ->
        result = Returned (login_failed text))
  /\ (forall resp props,
        server req = Returned resp -> ok resp = false ->
        resp_json resp = Returned (JObj props) ->
        assoc "message" props = None ->
        result = Returned (login_failed "Login failed"))
  /\ (forall resp e,
        server req = Returned resp ->
        resp_json resp = Thrown e ->
        result
        = Returned (login_failed (str_or (exn_message e) "Login failed"))).
Proof.
  cbv zeta. rewrite login_run. cbv zeta. repeat split.
  - intros e ->. reflexivity.
  - intros resp props text -> Hok -> Hmsg Htext. rewrite Hok. cbn.
    rewrite Hmsg. cbn. apply String.eqb_neq in Htext. rewrite Htext. cbn.
    unfold str_or. now rewrite Htext.
  - intros resp props -> Hok -> Hmsg. rewrite Hok. cbn.
    now rewrite Hmsg.
  - intros resp e -> ->. reflexivity.
Qed.

(** X7. [getStatus] and [getTasks] hand back the parsed body exactly when
    the status is a success and the body parses; in every other case, a
    success answer that does not parse included, they return the zeroed
    status and the empty list. *)
Theorem getStatus_getTasks_result (w : world S) :
  let token := localStorage w !! tokenKey in
  let result_of (r : outcome response) (fallback : json) : outcome json :=
    match r with
    | Returned resp =>
        if ok resp then
          match resp_json resp with
          | Returned data => Returned data
          | Thrown _ => Returned fallback
          end
        else Returned fallback
    | Thrown _ => Returned fallback
    end in
  fst (getStatus VITE_API_URL server w)
    = result_of (server (status_request VITE_API_URL token)) status_fallback
  /\ fst (getTasks VITE_API_URL server w)
     = result_of (server (tasks_request VITE_API_URL token)) (JArr []).
Proof.
  cbv zeta. rewrite getStatus_run, getTasks_run. cbv zeta.
  split.
  - destruct (server _) as [resp | e]; [|reflexivity].
    destruct (ok resp); [|reflexivity].
    destruct (resp_json resp); reflexivity.
  - destruct (server (tasks_request _ _)) as [resp | e]; [|reflexivity].
    destruct (ok resp); [|reflexivity].
    destruct (resp_json resp); reflexivity.
Qed.

(** X8. [submitTask] logs every error it raises, once, before passing it
    on; and when it returns, it returns the parsed body of a success
    answer and has logged nothing. *)
Theorem submitTask_logs_what_it_raises
    (code : utf16) (file : option File) (w : world S) :
  let req :=
    submit_request VITE_API_URL (localStorage w !! tokenKey) code file in
  let run := submitTask VITE_API_URL server code file w in
  match fst run with
  | Thrown e =>
      console (snd run) = console w ++ [("Error submitting task:", e)]
  | Returned data =>
      console (snd run) = console w
      /\ exists resp,
           server req = Returned resp /\ ok resp = true
           /\ resp_json resp = Returned data
  end.
Proof.
  cbv zeta. rewrite submitTask_run. cbv zeta.
  destruct (server _) as [resp | e] eqn:Hresp; [|reflexivity].
  destruct (resp_json resp) as [data | e] eqn:Hjson; [|reflexivity].
  destruct (ok resp) eqn:Hok.
  - cbn. rewrite app_nil_r. eauto.
  - destruct (get_field data "message") as [e | message];
      [reflexivity |].
    destruct (toString (or_else message (JStr "Failed to submit task")));
      reflexivity.
Qed.

End ClientRuns.

(** ** The task submission view, path by path *)

Section ViewRuns.
Import JS Eff TaskSubmissionPage.
Context {E : Engine}.
Variable VITE_API_URL : option string.
Variable server : request -> outcome response.

Lemma submit_check (text : utf16) (f : option File) :
  negb (truthy_utf16 (trim text)) && negb (truthy_file f) = true
  <-> blank text /\ f = None.
Proof.
  unfold blank. rewrite <- truthy_trim.
  destruct (truthy_utf16 (trim text)), f; cbn; intuition congruence.
Qed.

(** The outcome of [submitTask] does not depend on the state of the
    component that calls it. *)
Lemma submitTask_any_component {S1 S2 : Type}
    (text : utf16) (f : option File) (w1 : world S1) (w2 : world S2) :
  localStorage w1 !! apiService.tokenKey
    = localStorage w2 !! apiService.tokenKey ->
  fst (apiService.submitTask VITE_API_URL server text f w1)
  = fst (apiService.submitTask VITE_API_URL server text f w2).
Proof.
  intros Htoken. rewrite !submitTask_run. cbv zeta. rewrite Htoken.
  repeat match goal with
         | |- context [match ?x with _ => _ end] => destruct x
         end; reflexivity.
Qed.

Lemma handleSubmit_run (interleaved : state -> state) (w : world state) :
  let st := component w in
  let req :=
    apiService.submit_request VITE_API_URL
      (localStorage w !! apiService.tokenKey) (code st) (file st) in
  let resumed := interleaved (setError None (setIsSubmitting true st)) in
  handleSubmit VITE_API_URL server interleaved w =
  if negb (truthy_utf16 (trim (code st))) && negb (truthy_file (file st))
  then (Returned tt, with_component (setError (Some empty_message)) w)
  else
    match fst (apiService.submitTask VITE_API_URL server
                 (code st) (file st) w) with
    | Returned taskData =>
        (Returned tt,
         mkWorld (localStorage w) (requests w ++ [req]) (console w)
                 (scrolled w ++ ["tasks-list"])
                 (setIsSubmitting false
                    (setFile None
                       (setCode []
                          (setUserTasks (fun prev => taskData :: prev)
                             resumed)))))
    | Thrown e =>
        (Returned tt,
         mkWorld (localStorage w) (requests w ++ [req])
                 (console w ++ [("Error submitting task:", e);
                                ("Error submitting task:", e)])
                 (scrolled w)
                 (setIsSubmitting false
                    (setError
                       (Some (str_or (exn_message e)
                                "Failed to submit task. Please try again."))
                       resumed)))
    end.
Proof.
  cbv zeta. unfold handleSubmit at 1. unfold bind at 1 2. unfold read.
  destruct (negb _ && negb _); [reflexivity |].
  unfold try_finally, try_catch, in_flight, bind, set_state, console_error,
    scrollIntoView.
  rewrite !submitTask_run. cbv zeta. unfold called, with_component. cbn.
  destruct (server _) as [resp | e]; cbn;
    [|rewrite <- ?app_assoc; reflexivity].
  destruct (resp_json resp) as [data | e]; cbn;
    [|rewrite <- ?app_assoc; reflexivity].
  destruct (ok resp); cbn; [rewrite ?app_nil_r; reflexivity |].
  destruct (get_field data "message") as [e | message]; cbn;
    [rewrite <- ?app_assoc; reflexivity |].
  destruct (toString (or_else message (JStr "Failed to submit task")));
    cbn; rewrite <- ?app_assoc; reflexivity.
Qed.

(** X9. [handleSubmit] never throws.  Whenever there is code that is not
    blank, or a file, it sends exactly one request, the form of which has
    at least one entry, and it ends with [isSubmitting] false, whether the
    submission succeeded or not. *)
Theorem handleSubmit_settles (interleaved : state -> state)
    (w : world state) :
  let st := component w in
  let run := handleSubmit VITE_API_URL server interleaved w in
  fst run = Returned tt
  /\ (~ (blank (code st) /\ file st = None) ->
      isSubmitting (component (snd run)) = false
      /\ apiService.submit_form (code st) (file st) <> []
      /\ requests (snd run)
         = requests w ++
             [apiService.submit_request VITE_API_URL
                (localStorage w !! apiService.tokenKey)
                (code st) (file st)]).
Proof.
  cbv zeta. rewrite handleSubmit_run. cbv zeta.
  destruct (negb _ && negb _) eqn:Hcheck.
  - split; [reflexivity |]. intros Hvalid. exfalso. apply Hvalid.
    now apply submit_check.
  - assert (Hform : apiService.submit_form (code (component w))
                      (file (component w)) <> []).
    { unfold apiService.submit_form.
      destruct (truthy_utf16 (trim (code (component w))));
        [discriminate |].
      destruct (file (component w)); discriminate. }
    destruct (fst (apiService.submitTask _ _ _ _ w)); cbn; auto.
Qed.

(** X10. When the submission fails (the network rejects it or the status
    is not a success), the view shows the message of the error
    [submitTask] raised, or "Failed to submit task. Please try again." when
    that message is empty; the task list, the code and the file are those
    the state had when the request came back, and the view does not
    scroll. *)
Theorem handleSubmit_failure (interleaved : state -> state)
    (w : world state) :
  let st := component w in
  let resumed := interleaved (setError None (setIsSubmitting true st)) in
  let after := snd (handleSubmit VITE_API_URL server interleaved w) in
  ~ (blank (code st) /\ file st = None) ->
  failure (server (apiService.submit_request VITE_API_URL
                     (localStorage w !! apiService.tokenKey)
                     (code st) (file st))) ->
  exists e,
    fst (apiService.submitTask VITE_API_URL server (code st) (file st) w)
      = Thrown e
    /\ error (component after)
       = Some (str_or (exn_message e)
                 "Failed to submit task. Please try again.")
    /\ userTasks (component after) = userTasks resumed
    /\ code (component after) = code resumed
    /\ file (component after) = file resumed
    /\ scrolled after = scrolled w.
Proof.
  cbv zeta. intros Hvalid Hfail. rewrite handleSubmit_run. cbv zeta.
  destruct (negb _ && negb _) eqn:Hcheck.
  { exfalso. apply Hvalid. now apply submit_check. }
  destruct (fst (apiService.submitTask _ _ _ _ w)) as [data | e] eqn:Hrun.
  - exfalso. revert Hrun. rewrite submitTask_run. cbv zeta.
    destruct (server _) as [resp | e]; [|discriminate].
    cbn in Hfail. rewrite Hfail.
    destruct (resp_json resp) as [d | e]; [|discriminate].
    destruct (get_field d "message") as [e | message]; [discriminate |].
    destruct (toString (or_else message (JStr "Failed to submit task")));
      discriminate.
  - exists e. repeat split.
Qed.

(** X11. After a successful submission the form is empty again (no code,
    no file), the view has scrolled to the task list once, and nothing was
    logged. *)
Theorem handleSubmit_success_clears_form
    (interleaved : state -> state) (w : world state)
    (resp : response) (taskData : json) :
  let st := component w in
  let after := snd (handleSubmit VITE_API_URL server interleaved w) in
  ~ (blank (code st) /\ file st = None) ->
  server (apiService.submit_request VITE_API_URL
            (localStorage w !! apiService.tokenKey) (code st) (file st))
    = Returned resp ->
  ok resp = true ->
  resp_json resp = Returned taskData ->
  code (component after) = []
  /\ file (component after) = None
  /\ isSubmitting (component after) = false
  /\ error (component after)
     = error (interleaved (setError None (setIsSubmitting true st)))
  /\ scrolled after = scrolled w ++ ["tasks-list"]
  /\ console after = console w.
Proof.
  cbv zeta. intros Hvalid Hresp Hok Hjson. rewrite handleSubmit_run.
  cbv zeta.
  destruct (negb _ && negb _) eqn:Hcheck.
  { exfalso. apply Hvalid. now apply submit_check. }
  rewrite submitTask_run. cbv zeta. rewrite Hresp, Hjson, Hok. cbn.
  repeat split.
Qed.

(** What [FormData.append] stores has as many code units as what was
    typed, and is the text itself when the text has no surrogate. *)
Lemma toUSVString_length (text : utf16) :
  length (toUSVString text) = length text.
Proof.
  assert (Hall : forall n (s : utf16),
            (length s <= n)%nat -> length (toUSVString s) = length s).
  { induction n as [|n IH]; intros [|c s] Hlen; cbn in *;
      try reflexivity; try lia.
    destruct (is_high_surrogate c).
    - destruct s as [|d s]; [reflexivity |].
      destruct (is_low_surrogate d); cbn in *.
      + rewrite IH by lia. reflexivity.
      + change (Datatypes.S (length (toUSVString (d :: s)))
                = Datatypes.S (Datatypes.S (length s))).
        rewrite (IH (d :: s)) by (cbn; lia). reflexivity.
    - destruct (is_low_surrogate c); cbn; rewrite IH by lia; reflexivity. }
  now apply (Hall (length text)).
Qed.

Lemma toUSVString_plain (text : utf16) :
  Forall (fun c => is_high_surrogate c = false
                   /\ is_low_surrogate c = false) text ->
  toUSVString text = text.
Proof.
  induction 1 as [|c s [Hhigh Hlow] _ IH]; cbn; [reflexivity |].
  now rewrite Hhigh, Hlow, IH.
Qed.

(** X12. The form [submitTask] sends: the code when it is not blank,
    followed by the file when there is one, and nothing else; a blank
    code field next to a file is left out.  The code is sent as
    [FormData] stores it: as typed when it has no surrogate code unit,
    and in general with each unpaired surrogate replaced by U+FFFD, which
    keeps its length. *)
Theorem submit_form_entries (text : utf16) (f : option File) :
  let form := apiService.submit_form text f in
  let sent := toUSVString text in
  (blank text -> f = None -> form = [])
  /\ (blank text -> forall file, f = Some file ->
      form = [("file", FieldFile file)])
  /\ (~ blank text -> f = None -> form = [("code", FieldText sent)])
  /\ (~ blank text -> forall file, f = Some file ->
      form = [("code", FieldText sent); ("file", FieldFile file)])
  /\ (Forall (fun c => is_high_surrogate c = false
                       /\ is_low_surrogate c = false) text ->
      sent = text)
  /\ length sent = length text
  /\ (forall c, text = [c] ->
      is_high_surrogate c = true \/ is_low_surrogate c = true ->
      sent = [65533%N]).
Proof.
  cbv zeta.
  assert (Hform :
    (blank text -> f = None -> apiService.submit_form text f = [])
    /\ (blank text -> forall file, f = Some file ->
        apiService.submit_form text f = [("file", FieldFile file)])
    /\ (~ blank text -> f = None ->
        apiService.submit_form text f
        = [("code", FieldText (toUSVString text))])
    /\ (~ blank text -> forall file, f = Some file ->
        apiService.submit_form text f
        = [("code", FieldText (toUSVString text));
           ("file", FieldFile file)])).
  { unfold apiService.submit_form, blank.
    destruct (truthy_utf16 (trim text)) eqn:Htrim.
    - assert (Hnot : ~ Forall (fun c => is_whitespace c = true) text).
      { rewrite <- truthy_trim. congruence. }
      split; [intros Hb; contradiction |].
      split; [intros Hb; contradiction |].
      split; [intros _ -> ; reflexivity |].
      intros _ file ->. reflexivity.
    - apply truthy_trim in Htrim.
      split; [intros _ ->; reflexivity |].
      split; [intros _ file ->; reflexivity |].
      split; [intros Hb; contradiction |].
      intros Hb. contradiction. }
  destruct Hform as (H1 & H2 & H3 & H4).
  split; [exact H1 |]. split; [exact H2 |]. split; [exact H3 |].
  split; [exact H4 |]. split; [apply toUSVString_plain |].
  split; [apply toUSVString_length |].
  intros c -> [Hhigh | Hlow]; cbn.
  - now rewrite Hhigh.
  - rewrite Hlow. now destruct (is_high_surrogate c).
Qed.

(** X13. [handleFileChange] changes nothing but the selected file and the
    error: it sends no request, logs nothing, and leaves the code, the
    task list and the other fields alone.  With no file picked nothing
    changes at all, and a refused file (too large, or of a type that is
    not allowed) leaves the earlier selection attached while the error is
    shown. *)
Theorem handleFileChange_frame
    (selectedFile : option File) (w : world state) :
  let run := handleFileChange selectedFile w in
  let st := component w in
  let st' := component (snd run) in
  fst run = Returned tt
  /\ localStorage (snd run) = localStorage w
  /\ requests (snd run) = requests w
  /\ console (snd run) = console w
  /\ scrolled (snd run) = scrolled w
  /\ code st' = code st /\ isSubmitting st' = isSubmitting st
  /\ phoneStatus st' = phoneStatus st /\ userTasks st' = userTasks st
  /\ (selectedFile = None -> snd run = w)
  /\ (forall f, selectedFile = Some f ->
      (MAX_FILE_SIZE < file_size f)%N \/ ~ allowed f ->
      file st' = file st /\ error st' <> None).
Proof.
  cbv zeta. unfold handleFileChange.
  destruct selectedFile as [f|].
  - destruct (N.ltb_spec MAX_FILE_SIZE (file_size f)) as [Hbig | Hfits].
    + repeat split; try discriminate.
    + destruct (negb (includes allowedTypes (file_type f))
                  && negb (endsWith (file_name f) ".js")) eqn:Hcheck.
      * repeat split; try discriminate.
      * apply allowed_check in Hcheck.
        do 9 (split; [reflexivity |]).
        split; [discriminate |].
        intros f' [= <-] [Hbig | Hnot]; [lia | contradiction].
  - repeat split; discriminate.
Qed.

End ViewRuns.

(** ** The estimated-time text, branch by branch *)

Section EstimateFacts.
Import JS Eff TaskSubmissionPage.
Context {E : Engine}.

Lemma formatEstimatedTime_run (now : Z) (task : Task) (due : string) :
  estimatedCompletionTime task = Some due ->
  due <> "" ->
  formatEstimatedTime now task =
  match Date_parse due with
  | None => "NaN hour "
  | Some t =>
      if t <? now then "Processing is taking longer than expected"
      else
        let diffMins := (t - now + 30000) / 60000 in
        if diffMins <? 1 then "Less than a minute"
        else if diffMins =? 1 then "1 minute"
        else if diffMins <? 60 then pretty diffMins +:+ " minutes"
        else
          pretty (diffMins / 60) +:+ " hour"
            +:+ (if 1 <? diffMins / 60 then "s" else "") +:+ " "
            +:+ (if 0 <? Z.rem diffMins 60 then
                   pretty (Z.rem diffMins 60) +:+ " minute"
                     +:+ (if 1 <? Z.rem diffMins 60 then "s" else "")
                 else "")
  end.
Proof.
  intros Hdue Hne. unfold formatEstimatedTime. rewrite Hdue.
  cbn [truthy_str template_str]. apply String.eqb_neq in Hne.
  rewrite Hne. cbn [negb].
  destruct (Date_parse due) as [t|]; [|reflexivity].
  cbn [num_ltb]. destruct (t <? now); [reflexivity |].
  cbn [num_sub fmap option_fmap option_map num_ltb num_eqb num_toString].
  now rewrite Math_round_quot_minutes.
Qed.

(** X14. A task whose due time is before the current time, by however
    little, is shown as "Processing is taking longer than expected"; a
    task due exactly now is shown as "Less than a minute". *)
Theorem formatEstimatedTime_past
    (now t : Z) (task : Task) (due : string) :
  estimatedCompletionTime task = Some due ->
  due <> "" ->
  Date_parse due = Some t ->
  (t < now ->
   formatEstimatedTime now task
   = "Processing is taking longer than expected")
  /\ (t = now -> formatEstimatedTime now task = "Less than a minute").
Proof.
  intros Hdue Hne Ht.
  rewrite (formatEstimatedTime_run now task due Hdue Hne), Ht.
  split.
  - intros Hlt. now destruct (Z.ltb_spec t now) as [_|]; [|lia].
  - intros ->. rewrite Z.ltb_irrefl, Z.sub_diag. reflexivity.
Qed.

(** X15. A task whose [estimatedCompletionTime] is a non-empty string that
    is not a date is shown as "NaN hour ", whatever the current time. *)
Theorem formatEstimatedTime_invalid_date (task : Task) (due : string) :
  estimatedCompletionTime task = Some due ->
  due <> "" ->
  Date_parse due = None ->
  forall now : Z, formatEstimatedTime now task = "NaN hour ".
Proof.
  intros Hdue Hne Hnan now.
  now rewrite (formatEstimatedTime_run now task due Hdue Hne), Hnan.
Qed.

(** X16. The text changes at 30 seconds, at 90 seconds and at 59.5
    minutes: a task due in less than 30,000 ms is shown as "Less than a
    minute", one due in 30,000 to 89,999 ms as "1 minute", one due in
    90,000 to 3,569,999 ms as "N minutes" with N from 2 to 59 the nearest
    count of minutes. *)
Theorem formatEstimatedTime_thresholds
    (now t : Z) (task : Task) (due : string) :
  estimatedCompletionTime task = Some due ->
  due <> "" ->
  Date_parse due = Some t ->
  let d := t - now in
  (0 <= d < 30000 -> formatEstimatedTime now task = "Less than a minute")
  /\ (30000 <= d < 90000 -> formatEstimatedTime now task = "1 minute")
  /\ (90000 <= d < 3570000 ->
      exists n, 2 <= n <= 59
                /\ 60000 * n - 30000 <= d < 60000 * n + 30000
                /\ formatEstimatedTime now task = pretty n +:+ " minutes").
Proof.
  intros Hdue Hne Ht d.
  rewrite (formatEstimatedTime_run now task due Hdue Hne), Ht.
  cbv zeta. fold d.
  pose proof (Z.div_mod (d + 30000) 60000 ltac:(lia)) as Hdiv.
  pose proof (Z.mod_pos_bound (d + 30000) 60000 ltac:(lia)) as Hmod.
  set (n := (d + 30000) / 60000) in *.
  repeat split.
  - intros Hd. destruct (Z.ltb_spec t now) as [|_]; [lia |].
    destruct (Z.ltb_spec n 1) as [_|]; [reflexivity | nia].
  - intros Hd. destruct (Z.ltb_spec t now) as [|_]; [lia |].
    destruct (Z.ltb_spec n 1) as [|_]; [nia |].
    destruct (Z.eqb_spec n 1) as [_|]; [reflexivity | nia].
  - intros Hd. exists n.
    destruct (Z.ltb_spec t now) as [|_]; [lia |].
    destruct (Z.ltb_spec n 1) as [|_]; [nia |].
    destruct (Z.eqb_spec n 1) as [|_]; [nia |].
    destruct (Z.ltb_spec n 60) as [_|]; [|nia].
    repeat split; lia.
Qed.

(** X17. From 59.5 minutes on the text counts hours and minutes: for the
    nearest count of minutes, split as 60 h + m, it is "h hour", an "s"
    when h is above 1, a space, and then "m minute" with an "s" when m is
    above 1, or nothing when m is 0 (so that a whole number of hours ends
    in a space). *)
Theorem formatEstimatedTime_hours
    (now t : Z) (task : Task) (due : string) :
  estimatedCompletionTime task = Some due ->
  due <> "" ->
  Date_parse due = Some t ->
  3570000 <= t - now ->
  exists h m,
    1 <= h /\ 0 <= m < 60
    /\ 60000 * (60 * h + m) - 30000 <= t - now
       < 60000 * (60 * h + m) + 30000
    /\ formatEstimatedTime now task
       = pretty h +:+ " hour" +:+ (if 1 <? h then "s" else "") +:+ " "
           +:+ (if 0 <? m then
                  pretty m +:+ " minute" +:+ (if 1 <? m then "s" else "")
                else "")
    /\ (m = 0 ->
        formatEstimatedTime now task
        = pretty h +:+ " hour" +:+ (if 1 <? h then "s" else "") +:+ " ").
Proof.
  intros Hdue Hne Ht Hd.
  rewrite (formatEstimatedTime_run now task due Hdue Hne), Ht.
  cbv zeta.
  pose proof (Z.div_mod (t - now + 30000) 60000 ltac:(lia)) as Hdiv.
  pose proof (Z.mod_pos_bound (t - now + 30000) 60000 ltac:(lia)) as Hmod.
  set (n := (t - now + 30000) / 60000) in *.
  assert (Hn : 60 <= n) by nia.
  pose proof (Z.div_mod n 60 ltac:(lia)) as Hdiv'.
  pose proof (Z.mod_pos_bound n 60 ltac:(lia)) as Hmod'.
  rewrite (Z.rem_mod_nonneg n 60) by lia.
  exists (n / 60), (n mod 60).
  destruct (Z.ltb_spec t now) as [|_]; [lia |].
  destruct (Z.ltb_spec n 1) as [|_]; [lia |].
  destruct (Z.eqb_spec n 1) as [|_]; [lia |].
  destruct (Z.ltb_spec n 60) as [|_]; [lia |].
  split; [nia |]. split; [lia |]. split; [nia |].
  split; [reflexivity |].
  intros ->. reflexivity.
Qed.

End EstimateFacts.

(** ** The session: logout, the validation at startup, the route guard *)

Section SessionRuns.
Import JS Eff AuthContext.
Context {E : Engine}.
Variable VITE_API_URL : option string.
Variable server : request -> outcome response.

Lemma startup_run (interleaved : state -> state) (w : world state) :
  let token := localStorage w !! apiService.tokenKey in
  let req := apiService.validate_request VITE_API_URL token in
  let cleared logged :=
    (Returned tt,
     mkWorld (delete apiService.tokenKey (localStorage w))
             (requests w ++ [req]) (console w ++ logged) (scrolled w)
             (setUserToken None (interleaved (component w)))) in
  validateToken VITE_API_URL server interleaved w =
  if truthy_str token then
    match server req with
    | Thrown e => cleared [("Token validation error:", e)]
    | Returned resp =>
        if ok resp then
          (Returned tt,
           mkWorld (localStorage w) (requests w ++ [req]) (console w)
                   (scrolled w) (interleaved (component w)))
        else cleared []
    end
  else (Returned tt, w).
Proof.
  cbv zeta. unfold validateToken at 1. unfold bind at 1, getItem at 1.
  destruct (truthy_str _) eqn:Htoken; cbn [negb]; [|reflexivity].
  unfold try_catch, in_flight, bind. rewrite validateToken_run. cbv zeta.
  rewrite Htoken. unfold called, with_component.
  destruct (server _) as [resp | e]; cbn; [|reflexivity].
  destruct (ok resp); cbn; rewrite app_nil_r; reflexivity.
Qed.

(** X18. [logout] removes the token from the session store and from the
    state without sending anything: afterwards the session is not
    authenticated, the other keys of the store are as they were, a reload
    of the page starts without a token, and [validateToken] answers
    [{valid: false}] without a request. *)
Theorem logout_clears_session (w : world state) :
  let after := snd (logout w) in
  fst (logout w) = Returned tt
  /\ localStorage after !! apiService.tokenKey = None
  /\ (forall key, key <> apiService.tokenKey ->
        localStorage after !! key = localStorage w !! key)
  /\ userToken (component after) = None
  /\ isAuthenticated (value (component after)) = false
  /\ isLoading (component after) = isLoading (component w)
  /\ requests after = requests w
  /\ userToken (AuthProvider (localStorage after)) = None
  /\ apiService.validateToken VITE_API_URL server after
     = (Returned (apiService.validation false), after).
Proof.
  cbv zeta. unfold logout, bind, removeItem, set_state, with_component.
  cbn.
  assert (Hgone : delete apiService.tokenKey (localStorage w)
                    !! apiService.tokenKey = None)
    by apply lookup_delete_eq.
  repeat split; try assumption.
  - intros key Hkey. now apply lookup_delete_ne.
  - rewrite validateToken_run. cbv zeta. cbn [localStorage].
    now rewrite Hgone.
Qed.

(** X19. The validation at startup never throws.  Without a token (or
    with the empty string) it does nothing.  With a token, it sends one
    validation request; when the service accepts it the store and the
    token are left alone, and when the call fails the token is removed
    from the store and from the state, so that the session is no longer
    authenticated.  The error branch of the effect itself is never
    taken: the only thing logged is what [validateToken] logs. *)
Theorem startup_validation (interleaved : state -> state)
    (w : world state) :
  let token := localStorage w !! apiService.tokenKey in
  let req := apiService.validate_request VITE_API_URL token in
  let run := validateToken VITE_API_URL server interleaved w in
  fst run = Returned tt
  /\ (truthy_str token = false -> snd run = w)
  /\ (truthy_str token = true ->
      requests (snd run) = requests w ++ [req])
  /\ (truthy_str token = true ->
      forall resp, server req = Returned resp -> ok resp = true ->
      localStorage (snd run) = localStorage w
      /\ component (snd run) = interleaved (component w))
  /\ (truthy_str token = true -> failure (server req) ->
      localStorage (snd run) !! apiService.tokenKey = None
      /\ userToken (component (snd run)) = None
      /\ isAuthenticated (value (component (snd run))) = false)
  /\ (console (snd run) = console w
      \/ exists e,
           console (snd run)
           = console w ++ [("Token validation error:", e)]).
Proof.
  cbv zeta. rewrite startup_run. cbv zeta.
  destruct (truthy_str _) eqn:Htoken.
  - destruct (server _) as [resp | e] eqn:Hresp; [destruct (ok resp) eqn:Hok |];
      cbn [fst snd localStorage requests console component failure].
    + split; [reflexivity |]. split; [discriminate |].
      split; [reflexivity |].
      split; [intros _ r [= <-] _; split; reflexivity |].
      split; [intros _ Hfail; congruence |].
      left. reflexivity.
    + split; [reflexivity |]. split; [discriminate |].
      split; [reflexivity |].
      split; [intros _ r [= <-] Hokr; congruence |].
      split; [intros _ _; split; [apply lookup_delete_eq | now split] |].
      left. apply app_nil_r.
    + split; [reflexivity |]. split; [discriminate |].
      split; [reflexivity |].
      split; [intros _ r Hr; discriminate |].
      split; [intros _ _; split; [apply lookup_delete_eq | now split] |].
      right. eauto.
  - split; [reflexivity |]. split; [reflexivity |].
    split; [discriminate |]. split; [discriminate |].
    split; [discriminate |]. left. reflexivity.
Qed.

(** X20. The token of the state and the token of the store agree: the
    initial state is read from the store, [logout] clears both, and the
    validation at startup keeps them equal when the events handled
    meanwhile leave the token of the state alone. *)
Theorem session_in_sync (interleaved : state -> state) (w : world state) :
  let in_sync (x : world state) :=
    userToken (component x) = localStorage x !! apiService.tokenKey in
  (forall storage,
     userToken (AuthProvider storage) = storage !! apiService.tokenKey)
  /\ in_sync (snd (logout w))
  /\ (in_sync w ->
      (forall st, userToken (interleaved st) = userToken st) ->
      in_sync (snd (validateToken VITE_API_URL server interleaved w))).
Proof.
  cbv zeta. split; [reflexivity |]. split.
  - unfold logout, bind, removeItem, set_state, with_component. cbn.
    symmetry. apply lookup_delete_eq.
  - intros Hsync Hkeeps. rewrite startup_run. cbv zeta.
    destruct (truthy_str _); [|exact Hsync].
    destruct (server _) as [resp | e]; cbn.
    + destruct (ok resp); cbn.
      * now rewrite Hkeeps.
      * symmetry. apply lookup_delete_eq.
    + symmetry. apply lookup_delete_eq.
Qed.

(** X21. The route guard shows the protected element exactly when the
    token of the session is a non-empty string, and redirects to
    [/login] otherwise, in particular right after [logout]; outside of a
    provider it throws. *)
Theorem ProtectedRoute_guards {A : Type} (element : A)
    (st : state) (w : world state) :
  (App.ProtectedRoute (Some (value st)) element = inr (App.Show element)
   <-> exists token, userToken st = Some token /\ token <> "")
  /\ (App.ProtectedRoute (Some (value st)) element = inr (App.Show element)
      \/ App.ProtectedRoute (Some (value st)) element
         = inr (App.Navigate "/login"))
  /\ App.ProtectedRoute (Some (value (component (snd (logout w)))))
       element
     = inr (App.Navigate "/login")
  /\ App.ProtectedRoute None element
     = inl (new_Error "useAuth must be used within an AuthProvider").
Proof.
  unfold App.ProtectedRoute, useAuth, value. cbn.
  destruct (userToken st) as [token|]; cbn.
  - destruct (String.eqb_spec token "") as [-> | Hne]; cbn.
    + repeat split; auto; try discriminate.
      intros (t & [= <-] & Ht). congruence.
    + repeat split; eauto.
  - repeat split; auto; try discriminate.
    intros (t & Ht & _). discriminate.
Qed.

End SessionRuns.

(** ** The further properties at concrete inputs *)

Section MoreInstances.
Import JS Eff Sample.

Lemma bearer_null_without_token_witness :
  exists req,
    requests (snd (apiService.getTasks None offline
                     (fresh (S := unit) ∅ tt))) = [] ++ [req]
    /\ req_headers req = [("Authorization", "Bearer null")].
Proof.
  pose proof (bearer_null_without_token (E := engine) None offline
                [] None (fresh (S := unit) ∅ tt) (lookup_empty _)) as Hw.
  cbv zeta in Hw. destruct Hw as (_ & Htasks & _). exact Htasks.
Defined.

Lemma login_failure_message_witness :
  fst (apiService.login None (refuses "Invalid credentials")
         "test" "wrong" (fresh (S := unit) ∅ tt))
  = Returned (apiService.login_failed "Invalid credentials")
  /\ fst (apiService.login None offline "test" "wrong"
            (fresh (S := unit) ∅ tt))
     = Returned (apiService.login_failed "Failed to fetch").
Proof.
  split.
  - pose proof (login_failure_message (E := engine) None
                  (refuses "Invalid credentials") "test" "wrong"
                  (fresh (S := unit) ∅ tt)) as Hw.
    cbv zeta in Hw. destruct Hw as (_ & Htext & _).
    apply (Htext (mkResponse 400
                    (Returned (JObj [("message",
                                      JStr "Invalid credentials")])))
                 [("message", JStr "Invalid credentials")]);
      [reflexivity | reflexivity | reflexivity | reflexivity
      | discriminate].
  - pose proof (login_failure_message (E := engine) None offline
                  "test" "wrong" (fresh (S := unit) ∅ tt)) as Hw.
    cbv zeta in Hw. destruct Hw as (Hnet & _).
    apply (Hnet (mkExn "TypeError" "Failed to fetch")). reflexivity.
Defined.

Lemma handleSubmit_settles_witness :
  let run :=
    TaskSubmissionPage.handleSubmit None offline id
      (fresh signed_in (typed [49%N])) in
  TaskSubmissionPage.isSubmitting (component (snd run)) = false
  /\ length (requests (snd run)) = 1%nat.
Proof.
  cbv zeta.
  pose proof (handleSubmit_settles (E := engine) None offline id
                (fresh signed_in (typed [49%N]))) as Hw.
  cbv zeta in Hw. destruct Hw as (_ & Hsent).
  destruct Hsent as (Hdone & _ & Hreq).
  - intros [Hblank _]. inversion Hblank as [|c r Hc Hr]. discriminate Hc.
  - split; [exact Hdone | now rewrite Hreq].
Defined.

Lemma handleSubmit_failure_witness :
  let after :=
    snd (TaskSubmissionPage.handleSubmit None (refuses "quota exceeded") id
           (fresh signed_in (typed [49%N]))) in
  TaskSubmissionPage.error (component after) = Some "quota exceeded"
  /\ TaskSubmissionPage.userTasks (component after) = [old_task]
  /\ TaskSubmissionPage.code (component after) = [49%N].
Proof.
  cbv zeta.
  pose proof (handleSubmit_failure (E := engine) None
                (refuses "quota exceeded") id
                (fresh signed_in (typed [49%N]))) as Hw.
  cbv zeta in Hw.
  destruct Hw as (e & Hrun & Herr & Htasks & Hcode & _).
  - intros [Hblank _]. inversion Hblank as [|c r Hc Hr]. discriminate Hc.
  - reflexivity.
  - vm_compute in Hrun. injection Hrun as <-.
    split; [exact Herr | split; [exact Htasks | exact Hcode]].
Defined.

Lemma handleSubmit_success_clears_form_witness :
  let after :=
    snd (TaskSubmissionPage.handleSubmit None (accepts new_task) id
           (fresh signed_in (typed [49%N]))) in
  TaskSubmissionPage.code (component after) = []
  /\ scrolled after = ["tasks-list"].
Proof.
  cbv zeta.
  pose proof (handleSubmit_success_clears_form (E := engine) None
                (accepts new_task) id (fresh signed_in (typed [49%N]))
                (mkResponse 200 (Returned new_task)) new_task) as Hw.
  cbv zeta in Hw.
  destruct Hw as (Hcode & _ & _ & _ & Hscroll & _).
  - intros [Hblank _]. inversion Hblank as [|c r Hc Hr]. discriminate Hc.
  - reflexivity.
  - reflexivity.
  - reflexivity.
  - split; [exact Hcode | exact Hscroll].
Defined.

Lemma submit_form_entries_witness :
  apiService.submit_form [32%N; 10%N]
    (Some (mkFile "job.js" "text/javascript" 120))
  = [("file", FieldFile (mkFile "job.js" "text/javascript" 120))]
  /\ apiService.submit_form [55357%N] None
     = [("code", FieldText [65533%N])]
  /\ apiService.submit_form [49%N; 59%N] None
     = [("code", FieldText [49%N; 59%N])].
Proof.
  split; [|split].
  - pose proof (submit_form_entries [32%N; 10%N]
                  (Some (mkFile "job.js" "text/javascript" 120))) as Hw.
    cbv zeta in Hw. destruct Hw as (_ & Hfile & _).
    apply Hfile; [repeat constructor | reflexivity].
  - pose proof (submit_form_entries [55357%N] None) as Hw.
    cbv zeta in Hw. destruct Hw as (_ & _ & Hcode & _ & _ & _ & Hlone).
    rewrite Hcode.
    + rewrite (Hlone 55357%N eq_refl); [reflexivity | left; reflexivity].
    + intros Hblank. inversion Hblank as [|c r Hc Hr]. discriminate Hc.
    + reflexivity.
  - pose proof (submit_form_entries [49%N; 59%N] None) as Hw.
    cbv zeta in Hw. destruct Hw as (_ & _ & Hcode & _ & Hplain & _).
    rewrite Hcode.
    + rewrite Hplain; [reflexivity | repeat constructor].
    + intros Hblank. inversion Hblank as [|c r Hc Hr]. discriminate Hc.
    + reflexivity.
Defined.

Lemma handleFileChange_frame_witness :
  let w :=
    fresh signed_in
      (TaskSubmissionPage.mkState [] (Some (mkFile "job.js" "" 120)) false
         None None [old_task]) in
  let after :=
    snd (TaskSubmissionPage.handleFileChange
           (Some (mkFile "data.csv" "text/csv" 10)) w) in
  TaskSubmissionPage.file (component after)
  = Some (mkFile "job.js" "" 120)
  /\ TaskSubmissionPage.error (component after) <> None.
Proof.
  cbv zeta.
  pose proof (handleFileChange_frame (E := engine)
                (Some (mkFile "data.csv" "text/csv" 10))
                (fresh signed_in
                   (TaskSubmissionPage.mkState []
                      (Some (mkFile "job.js" "" 120)) false None None
                      [old_task]))) as Hw.
  cbv zeta in Hw.
  destruct Hw as (_ & _ & _ & _ & _ & _ & _ & _ & _ & _ & Hrefused).
  apply (Hrefused (mkFile "data.csv" "text/csv" 10) eq_refl).
  right. apply not_allowed_check. reflexivity.
Defined.

Lemma formatEstimatedTime_past_witness :
  TaskSubmissionPage.formatEstimatedTime (midnight + 90001)
    (task_due (Some "2026-01-01T00:01:30.000Z"))
  = "Processing is taking longer than expected".
Proof.
  apply (formatEstimatedTime_past (E := engine) (midnight + 90001)
           1767225690000 (task_due (Some "2026-01-01T00:01:30.000Z"))
           "2026-01-01T00:01:30.000Z" eq_refl ltac:(discriminate) eq_refl).
  reflexivity.
Defined.

Lemma formatEstimatedTime_invalid_date_witness :
  TaskSubmissionPage.formatEstimatedTime midnight
    (task_due (Some "tomorrow")) = "NaN hour ".
Proof.
  apply (formatEstimatedTime_invalid_date (E := engine)
           (task_due (Some "tomorrow")) "tomorrow"
           eq_refl ltac:(discriminate) eq_refl).
Defined.

Lemma formatEstimatedTime_thresholds_witness :
  TaskSubmissionPage.formatEstimatedTime (midnight + 60001)
    (task_due (Some "2026-01-01T00:01:30.000Z")) = "Less than a minute"
  /\ TaskSubmissionPage.formatEstimatedTime (midnight + 60000)
       (task_due (Some "2026-01-01T00:01:30.000Z")) = "1 minute".
Proof.
  split.
  - pose proof (formatEstimatedTime_thresholds (E := engine)
                  (midnight + 60001) 1767225690000
                  (task_due (Some "2026-01-01T00:01:30.000Z"))
                  "2026-01-01T00:01:30.000Z"
                  eq_refl ltac:(discriminate) eq_refl) as Hw.
    cbv zeta in Hw. destruct Hw as (Hless & _).
    apply Hless. unfold midnight. lia.
  - pose proof (formatEstimatedTime_thresholds (E := engine)
                  (midnight + 60000) 1767225690000
                  (task_due (Some "2026-01-01T00:01:30.000Z"))
                  "2026-01-01T00:01:30.000Z"
                  eq_refl ltac:(discriminate) eq_refl) as Hw.
    cbv zeta in Hw. destruct Hw as (_ & Hone & _).
    apply Hone. unfold midnight. lia.
Defined.

Lemma formatEstimatedTime_hours_witness :
  exists h m,
    TaskSubmissionPage.formatEstimatedTime midnight
      (task_due (Some "2026-01-01T03:00:00.000Z"))
    = pretty h +:+ " hour" +:+ (if 1 <? h then "s" else "") +:+ " "
        +:+ (if 0 <? m then
               pretty m +:+ " minute" +:+ (if 1 <? m then "s" else "")
             else "").
Proof.
  destruct (formatEstimatedTime_hours (E := engine) midnight 1767236400000
              (task_due (Some "2026-01-01T03:00:00.000Z"))
              "2026-01-01T03:00:00.000Z"
              eq_refl ltac:(discriminate) eq_refl ltac:(discriminate))
    as (h & m & _ & _ & _ & Htext & _).
  exists h, m. exact Htext.
Defined.

Lemma logout_clears_session_witness :
  let w := fresh signed_in (AuthContext.AuthProvider signed_in) in
  localStorage (snd (AuthContext.logout w)) !! "theme"
  = localStorage w !! "theme".
Proof.
  cbv zeta.
  pose proof (logout_clears_session (E := engine) None offline
                (fresh signed_in (AuthContext.AuthProvider signed_in)))
    as Hw.
  cbv zeta in Hw. destruct Hw as (_ & _ & Hkeys & _).
  apply Hkeys. discriminate.
Defined.

Lemma startup_validation_witness :
  let w := fresh signed_in (AuthContext.AuthProvider signed_in) in
  let after :=
    snd (AuthContext.validateToken None (refuses "expired") id w) in
  localStorage after !! apiService.tokenKey = None
  /\ AuthContext.userToken (component after) = None.
Proof.
  cbv zeta.
  pose proof (startup_validation (E := engine) None (refuses "expired") id
                (fresh signed_in (AuthContext.AuthProvider signed_in)))
    as Hw.
  cbv zeta in Hw. destruct Hw as (_ & _ & _ & _ & Hfail & _).
  destruct Hfail as (Hstore & Hstate & _).
  - unfold fresh, signed_in. cbn [localStorage].
    rewrite lookup_singleton_eq. reflexivity.
  - unfold fresh, signed_in. cbn [localStorage].
    rewrite lookup_singleton_eq. reflexivity.
  - split; [exact Hstore | exact Hstate].
Defined.

Lemma session_in_sync_witness :
  let w := fresh signed_in (AuthContext.AuthProvider signed_in) in
  let after :=
    snd (AuthContext.validateToken None (accepts (JObj [])) id w) in
  AuthContext.userToken (component after)
  = localStorage after !! apiService.tokenKey.
Proof.
  cbv zeta.
  pose proof (session_in_sync (E := engine) None (accepts (JObj [])) id
                (fresh signed_in (AuthContext.AuthProvider signed_in)))
    as Hw.
  cbv zeta in Hw. destruct Hw as (_ & _ & Hkeeps).
  apply Hkeeps; reflexivity.
Defined.

End MoreInstances.
